(** * Lab6: a menu-driven PostgreSQL client for a book catalogue

    A shallow embedding of [src/main.cpp].  The program is a sequence of
    console reads and writes and of libpq requests; it is modelled as
    functions in a state-and-exception monad over a [World] that holds the
    operator's input (one entry per line), the server's answers to the
    coming requests, the table of live connections, the global
    [g_printNotices] and the trace of everything the process did, each
    entry stamped with the value of the flag at the time.  The [while] loop
    of [main] runs on fuel: a run that has not ended within the fuel is
    reported as still running.  Theorems quantify over all inputs and all
    answers of the server. *)

From Stdlib Require Import ZArith List String Ascii Bool Lia DecimalString.
Import ListNotations.
Open Scope list_scope.
Open Scope Z_scope.
Open Scope string_scope.

(** ** Text helpers *)

(** [std::endl], as the character it writes. *)
Definition endl : string := String (ascii_of_nat 10) EmptyString.

(** The double quote, for the SQL script's quoted identifiers. *)
Definition dq : string := String (ascii_of_nat 34) EmptyString.

(** [std::to_string(int)] and [ostream << int]: the decimal numeral. *)
Definition to_string (n : Z) : string := NilZero.string_of_int (Z.to_int n).

Definition INT_MIN : Z := -2147483648.
Definition INT_MAX : Z := 2147483647.

Definition in_int_range (v : Z) : bool := ((INT_MIN <=? v) && (v <=? INT_MAX))%Z.

(** [isspace] in the C locale. *)
Definition isspace (c : ascii) : bool :=
  let n := nat_of_ascii c in
  (Nat.eqb n 32) || ((Nat.leb 9 n) && (Nat.leb n 13)).

Definition digit_of (c : ascii) : option Z :=
  let n := Z.of_nat (nat_of_ascii c) in
  if ((48 <=? n) && (n <=? 57))%Z then Some (n - 48) else None.

Fixpoint skip_space (s : string) : string :=
  match s with
  | String c r => if isspace c then skip_space r else s
  | EmptyString => s
  end.

(** The value of the longest prefix of decimal digits, [None] when the text
    does not start with a digit ([seen] tells that one was read already). *)
Fixpoint digits (acc : Z) (seen : bool) (s : string) : option Z :=
  match s with
  | String c r =>
      match digit_of c with
      | Some d => digits (acc * 10 + d) true r
      | None => if seen then Some acc else None
      end
  | EmptyString => if seen then Some acc else None
  end.

(** [strtol(s, &end, 10)] without its range check: blanks, an optional sign,
    digits; whatever follows the digits is ignored. *)
Definition strtol10 (s : string) : option Z :=
  match skip_space s with
  | String "-" r => option_map Z.opp (digits 0 false r)
  | String "+" r => digits 0 false r
  | t => digits 0 false t
  end.

(** ** Exceptions *)

(** The exceptions the program can raise; all derive from [std::exception],
    which is what both handlers of [main] catch. *)
Inductive exception : Type :=
| runtime_error (msg : string)
| invalid_argument (msg : string)
| out_of_range (msg : string).

Definition what (ex : exception) : string :=
  match ex with
  | runtime_error m | invalid_argument m | out_of_range m => m
  end.

Inductive result (A : Type) : Type :=
| Ok (a : A)
| Throw (ex : exception).
Arguments Ok {A} a.
Arguments Throw {A} ex.

(** ** The world outside the program *)

(** A [PGconn*] is a handle into the table of connection objects. *)
Definition PGconn : Type := nat.

Inductive ExecStatusType : Type :=
| PGRES_EMPTY_QUERY
| PGRES_COMMAND_OK
| PGRES_TUPLES_OK
| PGRES_BAD_RESPONSE
| PGRES_NONFATAL_ERROR
| PGRES_FATAL_ERROR.

Definition status_eqb (a b : ExecStatusType) : bool :=
  match a, b with
  | PGRES_EMPTY_QUERY, PGRES_EMPTY_QUERY
  | PGRES_COMMAND_OK, PGRES_COMMAND_OK
  | PGRES_TUPLES_OK, PGRES_TUPLES_OK
  | PGRES_BAD_RESPONSE, PGRES_BAD_RESPONSE
  | PGRES_NONFATAL_ERROR, PGRES_NONFATAL_ERROR
  | PGRES_FATAL_ERROR, PGRES_FATAL_ERROR => true
  | _, _ => false
  end.

(** A [PGresult]: the status of the command and its rows, every field in
    text format (a NULL field reads as the empty string). *)
Record PGresult : Type := mkResult {
  resultStatus : ExecStatusType;
  rows : list (list string)
}.

(** What the server answers to one request.  A connection request reads
    [conn_ok] and [error]; a command reads [status], [tuples], [error] and
    the [notices] raised while it ran. *)
Record Reply : Type := mkReply {
  conn_ok : bool;
  status : ExecStatusType;
  tuples : list (list string);
  error : string;
  notices : list string
}.

(** The answer once the script is used up: the server is gone. *)
Definition no_reply : Reply :=
  mkReply false PGRES_FATAL_ERROR [] "no response from server" [].

(** A live connection object: [PQstatus], [PQerrorMessage], and whether
    [myNoticeProcessor] was installed on it (otherwise libpq's default
    processor, which always writes to stderr, is in place). *)
Record ConnObj : Type := mkConn {
  conn_good : bool;
  errorMessage : string;
  hooked : bool
}.

Inductive event : Type :=
| Cout (text : string)
| Cerr (text : string)
| EvConnectdb (conn : PGconn) (conninfo : string)
| EvSetdbLogin (conn : PGconn) (host port dbName login pwd : string)
| EvFinish (conn : PGconn)
| EvExec (conn : PGconn) (sql : string)
| EvExecParams (conn : PGconn) (sql : string) (params : list string).

(** A trace entry: the event and the value [g_printNotices] had when it
    happened. *)
Record entry : Type := mkEntry {
  notices_on : bool;
  ev : event
}.

Record World : Type := mkWorld {
  cin : list string;
  server : list Reply;
  g_printNotices : bool;
  conns : list (PGconn * ConnObj);
  next_conn : PGconn;
  trace : list entry
}.

(** The process at start-up: [g_printNotices] is initialised to [false]
    (main.cpp:9), nothing is connected, nothing has happened. *)
Definition initial_world (input : list string) (script : list Reply) : World :=
  mkWorld input script false [] O [].

Definition set_cin (v : list string) (w : World) : World :=
  mkWorld v (server w) (g_printNotices w) (conns w) (next_conn w) (trace w).
Definition set_server (v : list Reply) (w : World) : World :=
  mkWorld (cin w) v (g_printNotices w) (conns w) (next_conn w) (trace w).
Definition set_g_printNotices (v : bool) (w : World) : World :=
  mkWorld (cin w) (server w) v (conns w) (next_conn w) (trace w).
Definition set_conns (v : list (PGconn * ConnObj)) (w : World) : World :=
  mkWorld (cin w) (server w) (g_printNotices w) v (next_conn w) (trace w).
Definition set_next_conn (v : PGconn) (w : World) : World :=
  mkWorld (cin w) (server w) (g_printNotices w) (conns w) v (trace w).
Definition set_trace (v : list entry) (w : World) : World :=
  mkWorld (cin w) (server w) (g_printNotices w) (conns w) (next_conn w) v.

(** ** The monad: state passing with exceptions *)

Definition M (A : Type) : Type := World -> result A * World.

Definition ret {A : Type} (a : A) : M A := fun w => (Ok a, w).

Definition bind {A B : Type} (m : M A) (k : A -> M B) : M B :=
  fun w =>
    match m w with
    | (Ok a, w') => k a w'
    | (Throw ex, w') => (Throw ex, w')
    end.

Definition throw {A : Type} (ex : exception) : M A := fun w => (Throw ex, w).

(** [try { body } catch (const exception& ex) { handler }]: what [body]
    did before it threw stays done. *)
Definition try_catch {A : Type} (body : M A) (handler : exception -> M A) : M A :=
  fun w =>
    match body w with
    | (Ok a, w') => (Ok a, w')
    | (Throw ex, w') => handler ex w'
    end.

Definition gets {A : Type} (f : World -> A) : M A := fun w => (Ok (f w), w).
Definition modify (f : World -> World) : M unit := fun w => (Ok tt, f w).

Notation "x <- m ;; k" := (bind m (fun x => k))
  (at level 100, m at next level, right associativity).
Notation "m ;; k" := (bind m (fun _ => k))
  (at level 100, right associativity).

Definition emit (e : event) : M unit :=
  modify (fun w => set_trace (trace w ++ [mkEntry (g_printNotices w) e]) w).

(** ** The console *)

Definition cout (text : string) : M unit := emit (Cout text).
Definition cerr (text : string) : M unit := emit (Cerr text).

(** [getline(cin, s)]: the operator's next line; at the end of the input
    the string stays empty. *)
Definition getline : M string :=
  fun w =>
    match cin w with
    | [] => (Ok "", w)
    | line :: rest => (Ok line, set_cin rest w)
    end.

(** What [cin >> n] stores for a line: the number it starts with, 0 when
    there is none, the nearest bound of [int] when it does not fit. *)
Definition extract_int (line : string) : Z :=
  match strtol10 line with
  | Some v => Z.max INT_MIN (Z.min INT_MAX v)
  | None => 0
  end.

(** [cin >> n; cin.ignore();] with one entry per line.  The stream's sticky
    failure state after a malformed number is not modelled. *)
Definition cin_int : M Z := line <- getline ;; ret (extract_int line).

(** [std::stoi]: the libstdc++ messages. *)
Definition stoi (s : string) : M Z :=
  match strtol10 s with
  | None => throw (invalid_argument "stoi")
  | Some v => if in_int_range v then ret v else throw (out_of_range "stoi")
  end.

(** ** main.cpp:11-16 *)

(** [arg] is the [bool*] the processor was registered with, read when the
    notice arrives. *)
Definition myNoticeProcessor (arg : World -> bool) (message : string) : M unit :=
  printNotices <- gets arg ;;
  if printNotices then cerr message else ret tt.

(** libpq's own processor, in place on a connection where none was set. *)
Definition defaultNoticeProcessor (message : string) : M unit := cerr message.

(** ** libpq *)

Definition next_reply : M Reply :=
  fun w =>
    match server w with
    | [] => (Ok no_reply, w)
    | r :: rest => (Ok r, set_server rest w)
    end.

Definition lookup_conn (c : PGconn) (w : World) : option ConnObj :=
  option_map snd (find (fun p => Nat.eqb (fst p) c) (conns w)).

Definition update_conn (c : PGconn) (f : ConnObj -> ConnObj) (w : World) : World :=
  set_conns
    (map (fun p => if Nat.eqb (fst p) c then (fst p, f (snd p)) else p) (conns w)) w.

Definition drop_conn (c : PGconn) (w : World) : World :=
  set_conns (filter (fun p => negb (Nat.eqb (fst p) c)) (conns w)) w.

(** The connections that were opened and not yet given to [PQfinish]. *)
Definition live (w : World) : list PGconn := map fst (conns w).

(** Both connecting calls allocate a connection object whatever the
    outcome; it lives until [PQfinish]. *)
Definition new_conn (r : Reply) : M PGconn :=
  fun w =>
    let c := next_conn w in
    (Ok c, set_next_conn (S c)
             (set_conns ((c, mkConn (conn_ok r) (error r) false) :: conns w) w)).

Definition PQconnectdb (conninfo : string) : M PGconn :=
  r <- next_reply ;;
  c <- new_conn r ;;
  emit (EvConnectdb c conninfo) ;;
  ret c.

Definition PQsetdbLogin (pghost pgport dbName login pwd : string) : M PGconn :=
  r <- next_reply ;;
  c <- new_conn r ;;
  emit (EvSetdbLogin c pghost pgport dbName login pwd) ;;
  ret c.

(** [PQstatus(conn) == CONNECTION_OK]. *)
Definition PQstatus (c : PGconn) : M bool :=
  gets (fun w => match lookup_conn c w with Some o => conn_good o | None => false end).

Definition PQerrorMessage (c : PGconn) : M string :=
  gets (fun w => match lookup_conn c w with Some o => errorMessage o | None => "" end).

Definition PQfinish (c : PGconn) : M unit :=
  modify (drop_conn c) ;; emit (EvFinish c).

(** [PQsetNoticeProcessor(conn, myNoticeProcessor, &g_printNotices)], the
    only registration the program makes. *)
Definition PQsetNoticeProcessor (c : PGconn) : M unit :=
  modify (update_conn c (fun o => mkConn (conn_good o) (errorMessage o) true)).

Fixpoint deliver (proc : string -> M unit) (msgs : list string) : M unit :=
  match msgs with
  | [] => ret tt
  | m :: rest => proc m ;; deliver proc rest
  end.

(** The server runs one command: its error text becomes the connection's,
    its notices go through the connection's processor. *)
Definition run_command (c : PGconn) : M PGresult :=
  r <- next_reply ;;
  modify (update_conn c (fun o => mkConn (conn_good o) (error r) (hooked o))) ;;
  h <- gets (fun w => match lookup_conn c w with Some o => hooked o | None => false end) ;;
  deliver (if h then myNoticeProcessor g_printNotices else defaultNoticeProcessor)
          (notices r) ;;
  ret (mkResult (status r) (tuples r)).

Definition PQexec (c : PGconn) (command : string) : M PGresult :=
  emit (EvExec c command) ;; run_command c.

(** [PQexecParams(conn, command, nParams, nullptr, paramValues, nullptr,
    nullptr, 0)]: parameter types inferred by the server, every parameter
    and every result field in text format. *)
Definition PQexecParams (c : PGconn) (command : string) (nParams : nat)
    (paramValues : list string) : M PGresult :=
  emit (EvExecParams c command (firstn nParams paramValues)) ;; run_command c.

Definition PQresultStatus (res : PGresult) : ExecStatusType := resultStatus res.
Definition PQntuples (res : PGresult) : nat := List.length (rows res).

(** [PQgetvalue(res, i, j)]; the searches below only read the five columns
    of the table function's result. *)
Definition PQgetvalue (res : PGresult) (i j : nat) : string :=
  nth j (nth i (rows res) []) "".

(** ** main.cpp:18-32 *)

Record Book : Type := mkBook {
  id : Z;
  title : string;
  author : string;
  publisher : string;
  year : Z
}.

Definition checkResult (res : PGresult) (conn : PGconn) (errMsg : string) : M unit :=
  if negb (status_eqb (PQresultStatus res) PGRES_COMMAND_OK)
     && negb (status_eqb (PQresultStatus res) PGRES_TUPLES_OK)
  then
    error <- PQerrorMessage conn ;;
    throw (runtime_error (errMsg ++ ": " ++ error))
  else ret tt.

(** ** main.cpp:34-330, class DBManager *)

Record DBManager : Type := mkDBManager {
  dbName_ : string;
  user_ : string;
  password_ : string;
  conn_ : PGconn
}.

(** main.cpp:48-197, the provisioning script sent by [initProcedures]. *)
Definition proceduresSQL : string :=
  "
            CREATE EXTENSION IF NOT EXISTS dblink;

            CREATE OR REPLACE PROCEDURE sp_create_database(p_dbname VARCHAR)
            LANGUAGE plpgsql AS $$
            BEGIN
                PERFORM dblink_exec(
                    'host=localhost dbname=postgres user=' || current_user,
                    'CREATE DATABASE ' || quote_ident(p_dbname)
                );
                RAISE NOTICE 'Database " ++ dq ++
  "%" ++ dq ++
  " created.', p_dbname;
            END;
            $$;

            CREATE OR REPLACE PROCEDURE sp_drop_database(p_dbname VARCHAR)
            LANGUAGE plpgsql AS $$
            BEGIN
                PERFORM dblink_exec(
                    'host=localhost dbname=postgres user=' || current_user,
                    'DO $inner$
                     BEGIN
                       PERFORM pg_terminate_backend(pid)
                       FROM pg_stat_activity
                       WHERE datname = ' || quote_literal(p_dbname) || ' AND pid <> pg_backend_pid();
                     END $inner$;'
                );
                PERFORM dblink_exec(
                    'host=localhost dbname=postgres user=' || current_user,
                    'DROP DATABASE IF EXISTS ' || quote_ident(p_dbname)
                );
                RAISE NOTICE 'Database " ++ dq ++
  "%" ++ dq ++
  " dropped.', p_dbname;
            END;
            $$;

            CREATE OR REPLACE PROCEDURE sp_create_table(p_tablename VARCHAR)
            LANGUAGE plpgsql AS $$
            BEGIN
                IF EXISTS (
                    SELECT 1
                    FROM information_schema.tables
                    WHERE table_schema = 'public'
                      AND lower(table_name) = lower(p_tablename)
                ) THEN
                     RAISE NOTICE 'Table " ++ dq ++
  "%" ++ dq ++
  " already exists.', p_tablename;
                ELSE
                     EXECUTE format('CREATE TABLE %I (
                         id SERIAL PRIMARY KEY,
                         title VARCHAR(255),
                         author VARCHAR(255),
                         publisher VARCHAR(255),
                         year INT
                     )', p_tablename);
                     RAISE NOTICE 'Table " ++ dq ++
  "%" ++ dq ++
  " created.', p_tablename;
                END IF;
            END;
            $$;

            CREATE OR REPLACE PROCEDURE sp_clear_table(p_tablename VARCHAR)
            LANGUAGE plpgsql AS $$
            BEGIN
                EXECUTE format('TRUNCATE TABLE %I', p_tablename);
                RAISE NOTICE 'Table " ++ dq ++
  "%" ++ dq ++
  " cleared.', p_tablename;
            END;
            $$;

            CREATE OR REPLACE PROCEDURE sp_add_book(
                p_tablename VARCHAR,
                p_title VARCHAR,
                p_author VARCHAR,
                p_publisher VARCHAR,
                p_year INT
            )
            LANGUAGE plpgsql AS $$
            BEGIN
                EXECUTE format(
                  'INSERT INTO %I (title, author, publisher, year) VALUES (%L, %L, %L, %s)',
                  p_tablename, p_title, p_author, p_publisher, p_year
                );
                RAISE NOTICE 'Book added: %', p_title;
            END;
            $$;

            CREATE OR REPLACE FUNCTION sp_search_book_by_title(p_tablename VARCHAR, p_title VARCHAR)
            RETURNS TABLE(
                id INT,
                title VARCHAR,
                author VARCHAR,
                publisher VARCHAR,
                year INT
            )
            LANGUAGE plpgsql SECURITY DEFINER AS $$
            BEGIN
                IF NOT EXISTS (
                    SELECT 1 FROM information_schema.tables
                    WHERE table_schema = 'public'
                      AND lower(table_name) = lower(p_tablename)
                ) THEN
                    RETURN;
                ELSE
                    RETURN QUERY EXECUTE format(
                        'SELECT id, title, author, publisher, year FROM %I WHERE title ILIKE %L',
                        p_tablename, '%' || p_title || '%'
                    );
                END IF;
            END;
            $$;

            CREATE OR REPLACE PROCEDURE sp_update_book(
                p_tablename VARCHAR,
                p_id INT,
                p_title VARCHAR,
                p_author VARCHAR,
                p_publisher VARCHAR,
                p_year INT
            )
            LANGUAGE plpgsql AS $$
            BEGIN
                EXECUTE format(
                  'UPDATE %I SET title=%L, author=%L, publisher=%L, year=%s WHERE id=%s',
                  p_tablename, p_title, p_author, p_publisher, p_year, p_id
                );
                RAISE NOTICE 'Book updated with id: %', p_id;
            END;
            $$;

            CREATE OR REPLACE PROCEDURE sp_delete_book_by_title(p_tablename VARCHAR, p_title VARCHAR)
            LANGUAGE plpgsql AS $$
            BEGIN
                EXECUTE format(
                  'DELETE FROM %I WHERE title=%L',
                  p_tablename, p_title
                );
                RAISE NOTICE 'Book(s) with title " ++ dq ++
  "%" ++ dq ++
  " deleted.', p_title;
            END;
            $$;

            -- New procedure to create a DB user with a given access mode.
            CREATE OR REPLACE PROCEDURE sp_create_db_user(p_username VARCHAR, p_password VARCHAR, p_mode VARCHAR)
            LANGUAGE plpgsql AS $$
            BEGIN
                EXECUTE format('CREATE USER %I WITH PASSWORD %L', p_username, p_password);
                IF lower(p_mode) = 'admin' THEN
                    EXECUTE format('ALTER USER %I WITH SUPERUSER', p_username);
                ELSE
                    EXECUTE format('ALTER USER %I WITH NOSUPERUSER', p_username);
                END IF;
                RAISE NOTICE 'User " ++ dq ++
  "%" ++ dq ++
  " created with mode %.', p_username, p_mode;
            END;
            $$;
        ".

(** main.cpp:311-324.  The result of the [SET] statement is cleared
    unread. *)
Definition connect (dbName user password : string) : M PGconn :=
  let conninfo :=
    "host=localhost port=5432 dbname=" ++ dbName
      ++ " user=" ++ user ++ " password=" ++ password in
  conn <- PQconnectdb conninfo ;;
  ok <- PQstatus conn ;;
  if negb ok then
    error <- PQerrorMessage conn ;;
    PQfinish conn ;;
    throw (runtime_error ("Error connecting to DB: " ++ error))
  else
    PQsetNoticeProcessor conn ;;
    _ <- PQexec conn "SET client_min_messages TO warning;" ;;
    ret conn.

(** The constructor, main.cpp:36-39. *)
Definition new_DBManager (dbName user password : string) : M DBManager :=
  conn <- connect dbName user password ;;
  ret (mkDBManager dbName user password conn).

(** The destructor, main.cpp:41-45; [conn_] is never null once the
    constructor has returned. *)
Definition delete_DBManager (this : DBManager) : M unit :=
  PQfinish (conn_ this).

Definition initProcedures (this : DBManager) : M unit :=
  res <- PQexec (conn_ this) proceduresSQL ;;
  checkResult res (conn_ this) "Error initializing stored procedures".

Definition createDatabase (this : DBManager) (newDbName : string) : M unit :=
  connTemp <- PQsetdbLogin "localhost" "5432" "postgres" (user_ this) (password_ this) ;;
  ok <- PQstatus connTemp ;;
  if negb ok then
    error <- PQerrorMessage connTemp ;;
    PQfinish connTemp ;;
    throw (runtime_error ("Error connecting to postgres: " ++ error))
  else
    let sql := "CALL sp_create_database($1)" in
    let paramValues := [newDbName] in
    res <- PQexecParams connTemp sql 1 paramValues ;;
    checkResult res connTemp "Error creating database" ;;
    PQfinish connTemp.

Definition dropDatabase (this : DBManager) (dbNameToDrop : string) : M unit :=
  connTemp <- PQsetdbLogin "localhost" "5432" "postgres" (user_ this) (password_ this) ;;
  ok <- PQstatus connTemp ;;
  if negb ok then
    error <- PQerrorMessage connTemp ;;
    PQfinish connTemp ;;
    throw (runtime_error ("Error connecting to postgres: " ++ error))
  else
    let sql := "CALL sp_drop_database($1)" in
    let paramValues := [dbNameToDrop] in
    res <- PQexecParams connTemp sql 1 paramValues ;;
    checkResult res connTemp "Error dropping database" ;;
    PQfinish connTemp.

Definition createTable (this : DBManager) (tableName : string) : M unit :=
  let sql := "CALL sp_create_table($1)" in
  let paramValues := [tableName] in
  res <- PQexecParams (conn_ this) sql 1 paramValues ;;
  checkResult res (conn_ this) "Error creating table".

Definition clearTable (this : DBManager) (tableName : string) : M unit :=
  let sql := "CALL sp_clear_table($1)" in
  let paramValues := [tableName] in
  res <- PQexecParams (conn_ this) sql 1 paramValues ;;
  checkResult res (conn_ this) "Error clearing table".

Definition addBook (this : DBManager) (tableName title author publisher : string)
    (year : Z) : M unit :=
  let sql := "CALL sp_add_book($1, $2, $3, $4, $5)" in
  let yearStr := to_string year in
  let paramValues := [tableName; title; author; publisher; yearStr] in
  res <- PQexecParams (conn_ this) sql 5 paramValues ;;
  checkResult res (conn_ this) "Error adding book".

(** The loop of main.cpp:270-278: [nRows - i] rows are left, [books] holds
    the ones decoded so far. *)
Fixpoint decode_from (res : PGresult) (left : nat) (i : nat) (books : list Book)
    : M (list Book) :=
  match left with
  | O => ret books
  | S left' =>
      b_id <- stoi (PQgetvalue res i 0) ;;
      let b_title := PQgetvalue res i 1 in
      let b_author := PQgetvalue res i 2 in
      let b_publisher := PQgetvalue res i 3 in
      b_year <- stoi (PQgetvalue res i 4) ;;
      decode_from res left' (S i)
        (books ++ [mkBook b_id b_title b_author b_publisher b_year])
  end.

Definition searchBookByTitle (this : DBManager) (tableName titleFilter : string)
    : M (list Book) :=
  let books := [] in
  let sql := "SELECT * FROM sp_search_book_by_title($1, $2)" in
  let paramValues := [tableName; titleFilter] in
  res <- PQexecParams (conn_ this) sql 2 paramValues ;;
  if negb (status_eqb (PQresultStatus res) PGRES_TUPLES_OK) then
    throw (runtime_error "Error searching for book")
  else
    let nRows := PQntuples res in
    decode_from res nRows 0 books.

Definition updateBook (this : DBManager) (tableName : string) (id : Z)
    (title author publisher : string) (year : Z) : M unit :=
  let sql := "CALL sp_update_book($1, $2, $3, $4, $5, $6)" in
  let idStr := to_string id in
  let yearStr := to_string year in
  let paramValues := [tableName; idStr; title; author; publisher; yearStr] in
  res <- PQexecParams (conn_ this) sql 6 paramValues ;;
  checkResult res (conn_ this) "Error updating book".

Definition deleteBookByTitle (this : DBManager) (tableName title : string) : M unit :=
  let sql := "CALL sp_delete_book_by_title($1, $2)" in
  let paramValues := [tableName; title] in
  res <- PQexecParams (conn_ this) sql 2 paramValues ;;
  checkResult res (conn_ this) "Error deleting book".

Definition createDBUser (this : DBManager) (newUsername newPassword mode : string)
    : M unit :=
  let sql := "CALL sp_create_db_user($1, $2, $3)" in
  let paramValues := [newUsername; newPassword; mode] in
  res <- PQexecParams (conn_ this) sql 3 paramValues ;;
  checkResult res (conn_ this) "Error creating DB user".

(** ** main.cpp:332-341 *)

Definition show_book (b : Book) : string :=
  to_string (id b) ++ ": " ++ title b ++ " by " ++ author b
    ++ " (" ++ publisher b ++ ", " ++ to_string (year b) ++ ")" ++ endl.

Fixpoint print_each (books : list Book) : M unit :=
  match books with
  | [] => ret tt
  | b :: rest => cout (show_book b) ;; print_each rest
  end.

Definition printBooks (books : list Book) : M unit :=
  match books with
  | [] => cout ("No books found." ++ endl)
  | _ => print_each books
  end.

(** ** main.cpp:343-481, main *)

(** The variables of [main] that the menu loop can see. *)
Record Locals : Type := mkLocals {
  dbName : string;
  username : string;
  password : string;
  tableName : string;
  isAdmin : bool;
  exitFlag : bool
}.

Definition set_exitFlag (v : bool) (l : Locals) : Locals :=
  mkLocals (dbName l) (username l) (password l) (tableName l) (isAdmin l) v.

Definition invalid_choice : string :=
  "Invalid choice or operation not available for the current role." ++ endl.

(** main.cpp:365-384, the menu and the prompt. *)
Definition print_menu (isAdmin : bool) : M unit :=
  cout endl ;;
  cout ("Available operations:" ++ endl) ;;
  (if isAdmin then
     cout ("1. Create database" ++ endl) ;;
     cout ("2. Drop database" ++ endl) ;;
     cout ("3. Create table" ++ endl) ;;
     cout ("4. Clear table" ++ endl) ;;
     cout ("5. Add book" ++ endl) ;;
     cout ("6. Update book" ++ endl) ;;
     cout ("7. Delete book by Title" ++ endl)
   else ret tt) ;;
  cout ("8. Search book by Title" ++ endl) ;;
  cout ("9. View all records" ++ endl) ;;
  (if isAdmin then
     cout ("10. Create new DB user" ++ endl) ;;
     cout ("11. Exit" ++ endl)
   else
     cout ("10. Exit" ++ endl)) ;;
  cout "Choose an operation: ".

(** main.cpp:391-469, the chain of branches on [choice]; the result is the
    variables as the branch leaves them. *)
Definition menu_action (dbManager : DBManager) (l : Locals) (choice : Z) : M Locals :=
  if (choice =? 1)%Z && isAdmin l then
    cout "Enter the name of the database to create: " ;;
    newDb <- getline ;;
    createDatabase dbManager newDb ;;
    cout ("Database created." ++ endl) ;;
    ret l
  else if (choice =? 2)%Z && isAdmin l then
    cout "Enter the name of the database to drop: " ;;
    dropDb <- getline ;;
    dropDatabase dbManager dropDb ;;
    cout ("Database dropped." ++ endl) ;;
    ret l
  else if (choice =? 3)%Z && isAdmin l then
    createTable dbManager (tableName l) ;;
    cout ("Table created." ++ endl) ;;
    ret l
  else if (choice =? 4)%Z && isAdmin l then
    clearTable dbManager (tableName l) ;;
    cout ("Table cleared." ++ endl) ;;
    ret l
  else if (choice =? 5)%Z && isAdmin l then
    cout "Enter Title: " ;;
    title <- getline ;;
    cout "Enter Author: " ;;
    author <- getline ;;
    cout "Enter Publisher: " ;;
    publisher <- getline ;;
    cout "Enter Year: " ;;
    year <- cin_int ;;
    addBook dbManager (tableName l) title author publisher year ;;
    cout ("Book added." ++ endl) ;;
    ret l
  else if (choice =? 6)%Z && isAdmin l then
    cout "Enter the ID of the book to update: " ;;
    id <- cin_int ;;
    cout "Enter new Title: " ;;
    title <- getline ;;
    cout "Enter new Author: " ;;
    author <- getline ;;
    cout "Enter new Publisher: " ;;
    publisher <- getline ;;
    cout "Enter new Year: " ;;
    year <- cin_int ;;
    updateBook dbManager (tableName l) id title author publisher year ;;
    cout ("Book updated." ++ endl) ;;
    ret l
  else if (choice =? 7)%Z && isAdmin l then
    cout "Enter the Title of the book to delete: " ;;
    title <- getline ;;
    deleteBookByTitle dbManager (tableName l) title ;;
    cout ("Book deleted." ++ endl) ;;
    ret l
  else if (choice =? 8)%Z then
    cout "Enter part of the Title to search: " ;;
    title <- getline ;;
    books <- searchBookByTitle dbManager (tableName l) title ;;
    printBooks books ;;
    ret l
  else if (choice =? 9)%Z then
    books <- searchBookByTitle dbManager (tableName l) "" ;;
    printBooks books ;;
    ret l
  else if (choice =? 10)%Z && isAdmin l then
    cout "Enter new DB username: " ;;
    newUsername <- getline ;;
    cout "Enter new DB user password: " ;;
    newUserPassword <- getline ;;
    cout "Enter access mode for new user (admin/guest): " ;;
    newUserMode <- getline ;;
    createDBUser dbManager newUsername newUserPassword newUserMode ;;
    cout ("New DB user created." ++ endl) ;;
    ret l
  else if ((choice =? 10)%Z && negb (isAdmin l)) || ((choice =? 11)%Z && isAdmin l) then
    ret (set_exitFlag true l)
  else
    cout invalid_choice ;;
    ret l.

(** main.cpp:364-474, one turn of the [while] loop.  When the action
    throws, the variables are as they were: the only assignment to one of
    them, [exitFlag = true], is in a branch that calls nothing. *)
Definition loop_body (dbManager : DBManager) (l : Locals) : M Locals :=
  modify (set_g_printNotices false) ;;
  print_menu (isAdmin l) ;;
  choice <- cin_int ;;
  try_catch
    (modify (set_g_printNotices true) ;;
     l' <- menu_action dbManager l choice ;;
     modify (set_g_printNotices false) ;;
     ret l')
    (fun ex =>
       cerr ("Error: " ++ what ex ++ endl) ;;
       modify (set_g_printNotices false) ;;
       ret l).

(** [while (!exitFlag) { ... }], cut after [fuel] turns: the variables come
    back with [exitFlag] still [false] when the loop has not ended by then. *)
Fixpoint menu_loop (fuel : nat) (dbManager : DBManager) (l : Locals) : M Locals :=
  if exitFlag l then ret l
  else
    match fuel with
    | O => ret l
    | S fuel' =>
        l' <- loop_body dbManager l ;;
        menu_loop fuel' dbManager l'
    end.

(** The [try] block of [main], main.cpp:344-475.  [dbManager] is destroyed
    when the block is left, by the end of the loop or by an exception; an
    exception of its constructor leaves no object to destroy. *)
Definition main_try (fuel : nat) : M Locals :=
  cout "Enter database name: " ;;
  dbName <- getline ;;
  cout "Enter username: " ;;
  username <- getline ;;
  cout "Enter password: " ;;
  password <- getline ;;
  let isAdmin := String.eqb username "admin" in
  dbManager <- new_DBManager dbName username password ;;
  try_catch
    (initProcedures dbManager ;;
     cout ("Connection successful." ++ endl) ;;
     cout "Enter table name for operations: " ;;
     tableName <- getline ;;
     l <- menu_loop fuel dbManager
            (mkLocals dbName username password tableName isAdmin false) ;;
     (if exitFlag l then delete_DBManager dbManager else ret tt) ;;
     ret l)
    (fun ex => delete_DBManager dbManager ;; throw ex).

(** [main]: [Some 0] is [return 0]; [None] says the menu loop was still
    running after [fuel] turns. *)
Definition main (fuel : nat) (w : World) : option Z * World :=
  match main_try fuel w with
  | (Ok l, w') => if exitFlag l then (Some 0%Z, w') else (None, w')
  | (Throw ex, w') =>
      (Some 0%Z, snd (cerr ("Critical error: " ++ what ex ++ endl) w'))
  end.

(** ** Reading a trace *)



Definition stdout_of (t : list entry) : list string :=
  flat_map (fun x => match ev x with Cout s => [s] | _ => [] end) t.

Definition stderr_of (t : list entry) : list string :=
  flat_map (fun x => match ev x with Cerr s => [s] | _ => [] end) t.

(** The command text and the parameters of every parameterised command. *)
Definition commands_of (t : list entry) : list (string * list string) :=
  flat_map (fun x => match ev x with EvExecParams _ q ps => [(q, ps)] | _ => [] end) t.

(** ** What the specification names *)

(** The role resolver of the specification: privileged exactly for the
    literal. *)
Definition privileged (name : string) : Prop := name = "admin".

(** The number of the exit entry in the menu shown to each role. *)
Definition exit_choice (isAdmin : bool) : Z := if isAdmin then 11%Z else 10%Z.

(** The parameterised commands of the menu actions, with the table name of
    the session: command text and parameter values. *)
Inductive action_call (tbl : string) : string -> list string -> Prop :=
| call_create_database (name : string) :
    action_call tbl "CALL sp_create_database($1)" [name]
| call_drop_database (name : string) :
    action_call tbl "CALL sp_drop_database($1)" [name]
| call_create_table :
    action_call tbl "CALL sp_create_table($1)" [tbl]
| call_clear_table :
    action_call tbl "CALL sp_clear_table($1)" [tbl]
| call_add_book (t a p : string) (y : Z) :
    action_call tbl "CALL sp_add_book($1, $2, $3, $4, $5)" [tbl; t; a; p; to_string y]
| call_search (filter : string) :
    action_call tbl "SELECT * FROM sp_search_book_by_title($1, $2)" [tbl; filter]
| call_update_book (i : Z) (t a p : string) (y : Z) :
    action_call tbl "CALL sp_update_book($1, $2, $3, $4, $5, $6)"
      [tbl; to_string i; t; a; p; to_string y]
| call_delete_book (t : string) :
    action_call tbl "CALL sp_delete_book_by_title($1, $2)" [tbl; t]
| call_create_db_user (u p m : string) :
    action_call tbl "CALL sp_create_db_user($1, $2, $3)" [u; p; m].

(** The nine command texts of the ten actions (search and view-all share
    one). *)
Definition action_commands : list string :=
  [ "CALL sp_create_database($1)";
    "CALL sp_drop_database($1)";
    "CALL sp_create_table($1)";
    "CALL sp_clear_table($1)";
    "CALL sp_add_book($1, $2, $3, $4, $5)";
    "SELECT * FROM sp_search_book_by_title($1, $2)";
    "CALL sp_update_book($1, $2, $3, $4, $5, $6)";
    "CALL sp_delete_book_by_title($1, $2)";
    "CALL sp_create_db_user($1, $2, $3)" ].


Definition table_prompt : string := "Enter table name for operations: ".
Definition menu_prompt : string := "Choose an operation: ".

(** A row of the search result as a [Book], when both numbers read. *)
Definition decode_row (row : list string) : option Book :=
  match strtol10 (nth 0 row ""), strtol10 (nth 4 row "") with
  | Some i, Some y =>
      if in_int_range i && in_int_range y
      then Some (mkBook i (nth 1 row "") (nth 2 row "") (nth 3 row "") y)
      else None
  | _, _ => None
  end.

Fixpoint decode_all (rs : list (list string)) : option (list Book) :=
  match rs with
  | [] => Some []
  | r :: rest =>
      match decode_row r, decode_all rest with
      | Some b, Some bs => Some (b :: bs)
      | _, _ => None
      end
  end.


(** ** Sample sessions *)

Definition ok_reply : Reply := mkReply true PGRES_COMMAND_OK [] "" [].

Definition sample_manager : DBManager := mkDBManager "library" "guest" "pw" O.

Definition guest_locals : Locals :=
  mkLocals "library" "guest" "pw" "books" (String.eqb "guest" "admin") false.


(** A restricted operator who enters 10 at the first prompt. *)
Definition guest_enters_10 : World :=
  initial_world ["library"; "guest"; "pw"; "books"; "10"]
    [ok_reply; ok_reply; ok_reply].

(** A privileged operator who views all records of a table in which one
    book has no year, then leaves. *)
Definition null_year_rows : list (list string) :=
  [ ["1"; "Dune"; "Herbert"; "Ace"; "1965"];
    ["2"; "Emma"; "Austen"; "Murray"; ""] ].

Definition admin_views_null_year : World :=
  initial_world ["library"; "admin"; "x"; "books"; "9"; "11"]
    [ok_reply; ok_reply; ok_reply; mkReply true PGRES_TUPLES_OK null_year_rows "" []].

(** The same with the year present. *)
Definition admin_views_two_books : World :=
  initial_world ["library"; "admin"; "x"; "books"; "9"; "11"]
    [ok_reply; ok_reply; ok_reply;
     mkReply true PGRES_TUPLES_OK
       [ ["1"; "Dune"; "Herbert"; "Ace"; "1965"];
         ["2"; "Emma"; "Austen"; "Murray"; "1815"] ] "" []].

(** A world in which the next answer is one row of a search. *)
Definition one_row_world : World :=
  initial_world []
    [mkReply true PGRES_TUPLES_OK [["1"; "Dune"; "Herbert"; "Ace"; "1965"]] "" []].

(** A privileged operator whose search (choice 8) and whose create-table
    (choice 3) are both refused by the server, each with a message. *)
Definition admin_search_fails : World :=
  initial_world ["library"; "admin"; "x"; "books"; "8"; "dun"; "3"; "11"]
    [ok_reply; ok_reply; ok_reply;
     mkReply true PGRES_FATAL_ERROR [] "ERROR:  relation missing" [];
     mkReply true PGRES_FATAL_ERROR [] "ERROR:  permission denied" []].

(** A privileged operator who creates (choice 1) or drops (choice 2) a
    database, then leaves.  The fourth answer is the one to the connection
    to postgres, the fifth the one to the command. *)
Definition admin_database_session (choice : string) (answers : list Reply) : World :=
  initial_world ["library"; "admin"; "x"; "books"; choice; "library"; "11"]
    ([ok_reply; ok_reply; ok_reply] ++ answers).

Definition command_refused : list Reply :=
  [ok_reply; mkReply true PGRES_FATAL_ERROR [] "ERROR:  database exists" []].

Definition connection_refused : list Reply :=
  [mkReply false PGRES_FATAL_ERROR [] "FATAL:  no pg_hba.conf entry" []].

Definition command_accepted : list Reply := [ok_reply; ok_reply].

(** Whether a trace holds [PQfinish] of a connection. *)
Definition finished_conn (c : PGconn) (t : list entry) : bool :=
  existsb (fun x => match ev x with EvFinish c' => Nat.eqb c c' | _ => false end) t.

(** ** Judgements on computations *)

(** From here on [++] joins lists; strings are joined with [%string]. *)
Open Scope list_scope.

(** [keeps b Q m]: started with [g_printNotices = b], [m] ends with the
    flag still [b], whether it returns or throws, and every entry it adds
    to the trace satisfies [Q]. *)
Definition keeps (b : bool) (Q : entry -> Prop) {A : Type} (m : M A) : Prop :=
  forall w, g_printNotices w = b ->
    g_printNotices (snd (m w)) = b /\
    exists t, trace (snd (m w)) = (trace w ++ t)%list /\ Forall Q t.

(** [returns P m]: whenever [m] returns a value, the value satisfies [P]. *)
Definition returns {A : Type} (P : A -> Prop) (m : M A) : Prop :=
  forall w, match fst (m w) with Ok a => P a | Throw _ => True end.

(** What every entry added by a menu action satisfies: stamped [b]; a
    parameterised command is one of the action commands on table [tbl];
    no plain command, no primary connection; neither the table prompt nor
    the menu prompt is printed. *)
Definition action_entry (b : bool) (tbl : string) (x : entry) : Prop :=
  notices_on x = b /\
  match ev x with
  | EvExecParams _ q ps => action_call tbl q ps
  | EvExec _ _ | EvConnectdb _ _ => False
  | Cout s => s <> table_prompt /\ s <> menu_prompt
  | _ => True
  end.

(** What every entry added by the menu loop satisfies: commands are action
    commands issued with the flag on, the menu prompt is printed with the
    flag off, the table prompt is not printed, and whatever goes to the
    error stream goes there with the flag on. *)
Definition loop_entry (tbl : string) (x : entry) : Prop :=
  match ev x with
  | EvExecParams _ q ps => notices_on x = true /\ action_call tbl q ps
  | EvExec _ _ | EvConnectdb _ _ => False
  | Cout s => s <> table_prompt /\ (s = menu_prompt -> notices_on x = false)
  | Cerr _ => notices_on x = true
  | _ => True
  end.

(** The line the outer handler of [main] writes. *)
Definition critical (s : string) : Prop :=
  exists text, s = ("Critical error: " ++ text)%string.

(** [hooked_conn c w]: connection [c] is live in [w] with
    [myNoticeProcessor] installed. *)
Definition hooked_conn (c : PGconn) (w : World) : Prop :=
  exists o, lookup_conn c w = Some o /\ hooked o = true.

(** The two plain commands of the set-up: the one [connect] sends and the
    provisioning script. *)
Definition setup_commands : list string :=
  [ "SET client_min_messages TO warning;"%string; proceduresSQL ].

(** What every entry added while connecting, provisioning or releasing the
    primary connection satisfies. *)
Definition setup_entry (x : entry) : Prop :=
  notices_on x = false /\
  match ev x with
  | EvExecParams _ _ _ => False
  | EvExec _ q => In q setup_commands
  | Cout _ | Cerr _ => False
  | _ => True
  end.

(** What every entry of a whole run satisfies. *)
Definition run_entry (tbl : string) (x : entry) : Prop :=
  match ev x with
  | EvExecParams _ q ps => notices_on x = true /\ action_call tbl q ps
  | EvExec _ q => notices_on x = false /\ In q setup_commands
  | EvConnectdb _ _ => notices_on x = false
  | Cout s => s = menu_prompt -> notices_on x = false
  | Cerr s => notices_on x = true \/ critical s
  | _ => True
  end.

(** The discipline of the notice flag, entry by entry: a command of a menu
    action is sent with the flag on; the connection request and the plain
    commands of the set-up are sent with it off; the menu prompt is printed
    with it off; nothing but the line of the outer handler reaches the
    error stream while it is off. *)
Definition notice_discipline (x : entry) : Prop :=
  match ev x with
  | EvExecParams _ _ _ => notices_on x = true
  | EvExec _ _ | EvConnectdb _ _ => notices_on x = false
  | Cout s => s = menu_prompt -> notices_on x = false
  | Cerr s => notices_on x = true \/ critical s
  | _ => True
  end.

(** The command texts of a run are literals of the program. *)
Definition literal_command (x : entry) : Prop :=
  match ev x with
  | EvExecParams _ q _ => In q action_commands
  | EvExec _ q => In q setup_commands
  | _ => True
  end.


(** An entry that is no parameterised command. *)
Definition no_command (x : entry) : Prop :=
  match ev x with
  | EvExecParams _ _ _ => False
  | _ => True
  end.

(** [sends m w cs]: run from [w], [m] sends exactly the parameterised
    commands [cs], in this order. *)
Definition sends {A : Type} (m : M A) (w : World) (cs : list (string * list string))
    : Prop :=
  commands_of (trace (snd (m w))) = (commands_of (trace w) ++ cs)%list.

(** The answer to the next request. *)
Definition next_answer (w : World) : Reply := hd no_reply (server w).

(** The table prompt does not appear. *)
Definition no_table_prompt (x : entry) : Prop := ev x <> Cout table_prompt.

(** From [w] to [w'] the table prompt was printed once, at the start,
    straight after the line that reports the connection. *)
Definition prompted_once (w w' : World) : Prop :=
  exists t,
    trace w' = (trace w
                ++ mkEntry (g_printNotices w) (Cout ("Connection successful." ++ endl)%string)
                :: mkEntry (g_printNotices w) (Cout table_prompt) :: t)%list
    /\ Forall no_table_prompt t.


(** From [w] to [w'] the table prompt was printed at most once, and if so
    after the connection was reported. *)
Definition prompted_at_most_once (w w' : World) : Prop :=
  (exists t, trace w' = (trace w ++ t)%list /\ Forall no_table_prompt t)
  \/ (exists wm, (exists t, trace wm = (trace w ++ t)%list /\ Forall no_table_prompt t)
                 /\ prompted_once wm w').

(** Two states of [main]'s variables that differ at most in [exitFlag]. *)
Definition same_session (l l' : Locals) : Prop :=
  dbName l' = dbName l /\ username l' = username l /\ password l' = password l
  /\ tableName l' = tableName l /\ isAdmin l' = isAdmin l.

(** The part of [main_try] that follows the three prompts, with the menu
    loop as a parameter. *)
Definition session_with (loop : DBManager -> Locals -> M Locals)
    (dbName username password : string) : M Locals :=
  let isAdmin := String.eqb username "admin" in
  dbManager <- new_DBManager dbName username password ;;
  try_catch
    (initProcedures dbManager ;;
     cout ("Connection successful." ++ endl)%string ;;
     cout "Enter table name for operations: " ;;
     tableName <- getline ;;
     l <- loop dbManager
            (mkLocals dbName username password tableName isAdmin false) ;;
     (if exitFlag l then delete_DBManager dbManager else ret tt) ;;
     ret l)
    (fun ex => delete_DBManager dbManager ;; throw ex).

Definition session (fuel : nat) (dbName username password : string) : M Locals :=
  session_with (menu_loop fuel) dbName username password.

(** A run of the [try] block that is over: it threw, or the loop ended. *)
Definition finished (r : result Locals) : bool :=
  match r with
  | Ok l => exitFlag l
  | Throw _ => true
  end.

(** The world after the three prompts and their answers. *)
Definition after_prompts (w : World) : World :=
  snd ((cout "Enter database name: " ;; _ <- getline ;;
        cout "Enter username: " ;; _ <- getline ;;
        cout "Enter password: " ;; getline) w).

(** One turn of the loop, cut at its two marks: the world when the choice
    is about to be read, the number read, and the world in which the action
    starts. *)
Definition at_prompt (isAdmin : bool) (w : World) : World :=
  snd (print_menu isAdmin (set_g_printNotices false w)).

Definition chosen (w : World) : Z := extract_int (hd ""%string (cin w)).

Definition at_dispatch (isAdmin : bool) (w : World) : World :=
  set_g_printNotices true (set_cin (tl (cin w)) (at_prompt isAdmin w)).

(** [keeps_live m]: [m] opens and releases no connection. *)
Definition keeps_live {A : Type} (m : M A) : Prop :=
  forall w, live (snd (m w)) = live w.

(** The answer to the request after the next one. *)
Definition second_answer (w : World) : Reply := hd no_reply (tl (server w)).

(** A status that [checkResult] turns into an exception. *)
Definition refused (st : ExecStatusType) : Prop :=
  st <> PGRES_COMMAND_OK /\ st <> PGRES_TUPLES_OK.

(** [extends Q w w']: the trace of [w'] is the trace of [w] followed by
    entries that all satisfy [Q]. *)
Definition extends (Q : entry -> Prop) (w w' : World) : Prop :=
  exists t, trace w' = (trace w ++ t)%list /\ Forall Q t.

Definition has_newline (s : string) : bool :=
  existsb (fun c => Nat.eqb (nat_of_ascii c) 10) (list_ascii_of_string s).

(** ** Basic lemmas *)

Lemma keeps_ret (b : bool) (Q : entry -> Prop) (A : Type) (a : A) :
  keeps b Q (ret a).
Proof.
  intros w Hb; split; [exact Hb|].
  exists []; split; [symmetry; apply app_nil_r | constructor].
Qed.

Lemma keeps_throw (b : bool) (Q : entry -> Prop) (A : Type) (ex : exception) :
  keeps b Q (@throw A ex).
Proof.
  intros w Hb; split; [exact Hb|].
  exists []; split; [symmetry; apply app_nil_r | constructor].
Qed.

Lemma keeps_gets (b : bool) (Q : entry -> Prop) (A : Type) (f : World -> A) :
  keeps b Q (gets f).
Proof.
  intros w Hb; split; [exact Hb|].
  exists []; split; [symmetry; apply app_nil_r | constructor].
Qed.

Lemma keeps_frame (b : bool) (Q : entry -> Prop) (f : World -> World) :
  (forall w, g_printNotices (f w) = g_printNotices w) ->
  (forall w, trace (f w) = trace w) ->
  keeps b Q (modify f).
Proof.
  intros Hg Ht w Hb; simpl; split; [rewrite Hg; exact Hb|].
  exists []; split; [rewrite Ht; symmetry; apply app_nil_r | constructor].
Qed.

Lemma keeps_bind (b : bool) (Q : entry -> Prop) (A B : Type) (m : M A) (k : A -> M B) :
  keeps b Q m -> (forall a, keeps b Q (k a)) -> keeps b Q (bind m k).
Proof.
  intros Hm Hk w Hb. unfold bind.
  destruct (Hm w Hb) as [Hb1 [t1 [Ht1 HQ1]]].
  destruct (m w) as [[a|ex] w1]; simpl in *.
  - destruct (Hk a w1 Hb1) as [Hb2 [t2 [Ht2 HQ2]]].
    split; [exact Hb2|].
    exists (t1 ++ t2); split.
    + rewrite Ht2, Ht1; symmetry; apply app_assoc.
    + apply Forall_app; split; assumption.
  - split; [exact Hb1|]. exists t1; split; assumption.
Qed.

Lemma keeps_emit (b : bool) (Q : entry -> Prop) (e : event) :
  Q (mkEntry b e) -> keeps b Q (emit e).
Proof.
  intros HQ w Hb; simpl; split; [exact Hb|].
  exists [mkEntry b e]; split; [rewrite Hb; reflexivity|].
  constructor; [exact HQ | constructor].
Qed.

Lemma keeps_weaken (b : bool) (Q Q' : entry -> Prop) (A : Type) (m : M A) :
  (forall x, Q x -> Q' x) -> keeps b Q m -> keeps b Q' m.
Proof.
  intros HQ Hm w Hb. destruct (Hm w Hb) as [Hb1 [t [Ht Hall]]].
  split; [exact Hb1|]. exists t; split; [exact Ht|].
  eapply Forall_impl; [|exact Hall]. exact HQ.
Qed.

Lemma keeps_getline (b : bool) (Q : entry -> Prop) : keeps b Q getline.
Proof.
  intros w Hb; unfold getline. destruct (cin w); simpl;
    (split; [exact Hb|]; exists []; split; [symmetry; apply app_nil_r | constructor]).
Qed.

Lemma keeps_next_reply (b : bool) (Q : entry -> Prop) : keeps b Q next_reply.
Proof.
  intros w Hb; unfold next_reply. destruct (server w); simpl;
    (split; [exact Hb|]; exists []; split; [symmetry; apply app_nil_r | constructor]).
Qed.

Lemma keeps_new_conn (b : bool) (Q : entry -> Prop) (r : Reply) : keeps b Q (new_conn r).
Proof.
  intros w Hb; simpl; split; [exact Hb|].
  exists []; split; [symmetry; apply app_nil_r | constructor].
Qed.

Ltac keeps_step :=
  first
    [ apply keeps_ret | apply keeps_throw | apply keeps_gets
    | apply keeps_getline | apply keeps_next_reply | apply keeps_new_conn
    | apply keeps_bind; [| intros ?]
    | match goal with
      | |- keeps _ _ (if ?c then _ else _) => destruct c
      end ].

Section KeepsLibrary.
Variable b : bool.
Variable Q : entry -> Prop.

(** Entries that carry no command: the error stream, the administrative
    connection, the release of a connection. *)
Hypothesis Q_plain :
  forall e,
    match e with
    | Cerr _ | EvSetdbLogin _ _ _ _ _ _ | EvFinish _ => True
    | _ => False
    end -> Q (mkEntry b e).

Lemma keeps_cerr (s : string) : keeps b Q (cerr s).
Proof. apply keeps_emit, Q_plain; exact I. Qed.

Lemma keeps_cin_int : keeps b Q cin_int.
Proof. unfold cin_int; repeat keeps_step. Qed.

Lemma keeps_stoi (s : string) : keeps b Q (stoi s).
Proof.
  unfold stoi. destruct (strtol10 s); [|apply keeps_throw].
  repeat keeps_step.
Qed.

Lemma keeps_myNoticeProcessor (arg : World -> bool) (message : string) :
  keeps b Q (myNoticeProcessor arg message).
Proof.
  unfold myNoticeProcessor. apply keeps_bind; [apply keeps_gets|].
  intros [|]; [apply keeps_cerr | apply keeps_ret].
Qed.

Lemma keeps_deliver (proc : string -> M unit) (msgs : list string) :
  (forall m, keeps b Q (proc m)) -> keeps b Q (deliver proc msgs).
Proof.
  intros Hp. induction msgs as [|m rest IH]; simpl.
  - apply keeps_ret.
  - apply keeps_bind; [apply Hp | intros _; exact IH].
Qed.

Lemma keeps_update_conn (c : PGconn) (f : ConnObj -> ConnObj) :
  keeps b Q (modify (update_conn c f)).
Proof. apply keeps_frame; intros w; reflexivity. Qed.

Lemma keeps_run_command (c : PGconn) : keeps b Q (run_command c).
Proof.
  unfold run_command.
  apply keeps_bind; [apply keeps_next_reply | intros r].
  apply keeps_bind; [apply keeps_update_conn | intros _].
  apply keeps_bind; [apply keeps_gets | intros h].
  apply keeps_bind; [| intros _; apply keeps_ret].
  apply keeps_deliver. intros m.
  destruct h; [apply keeps_myNoticeProcessor | apply keeps_cerr].
Qed.

Lemma keeps_PQexecParams (c : PGconn) (q : string) (n : nat) (ps : list string) :
  Q (mkEntry b (EvExecParams c q (firstn n ps))) ->
  keeps b Q (PQexecParams c q n ps).
Proof.
  intros HQ. unfold PQexecParams.
  apply keeps_bind; [apply keeps_emit, HQ | intros _; apply keeps_run_command].
Qed.

Lemma keeps_PQsetdbLogin (h p d u pw : string) : keeps b Q (PQsetdbLogin h p d u pw).
Proof.
  unfold PQsetdbLogin. repeat keeps_step. apply keeps_emit, Q_plain; exact I.
Qed.

Lemma keeps_PQfinish (c : PGconn) : keeps b Q (PQfinish c).
Proof.
  unfold PQfinish. apply keeps_bind.
  - apply keeps_frame; intros w; reflexivity.
  - intros _. apply keeps_emit, Q_plain; exact I.
Qed.

Lemma keeps_checkResult (res : PGresult) (c : PGconn) (msg : string) :
  keeps b Q (checkResult res c msg).
Proof. unfold checkResult, PQerrorMessage. repeat keeps_step. Qed.

Lemma keeps_decode_from (res : PGresult) (n i : nat) (books : list Book) :
  keeps b Q (decode_from res n i books).
Proof.
  revert i books. induction n as [|n IH]; intros i books; simpl.
  - apply keeps_ret.
  - apply keeps_bind; [apply keeps_stoi | intros b_id].
    apply keeps_bind; [apply keeps_stoi | intros b_year]. apply IH.
Qed.

Lemma keeps_admin_call (this : DBManager) (q : string) (name msg : string) :
  (forall c, Q (mkEntry b (EvExecParams c q [name]))) ->
  keeps b Q
    (connTemp <- PQsetdbLogin "localhost" "5432" "postgres" (user_ this) (password_ this) ;;
     ok <- PQstatus connTemp ;;
     if negb ok then
       error <- PQerrorMessage connTemp ;;
       PQfinish connTemp ;;
       throw (runtime_error ("Error connecting to postgres: " ++ error)%string)
     else
       res <- PQexecParams connTemp q 1 [name] ;;
       checkResult res connTemp msg ;;
       PQfinish connTemp).
Proof.
  intros HQ.
  apply keeps_bind; [apply keeps_PQsetdbLogin | intros c].
  apply keeps_bind; [apply keeps_gets | intros ok].
  destruct ok; simpl.
  - apply keeps_bind; [apply keeps_PQexecParams, HQ | intros res].
    apply keeps_bind; [apply keeps_checkResult | intros _; apply keeps_PQfinish].
  - apply keeps_bind; [apply keeps_gets | intros e].
    apply keeps_bind; [apply keeps_PQfinish | intros _; apply keeps_throw].
Qed.

Lemma keeps_call (c : PGconn) (q : string) (n : nat) (ps : list string) (msg : string) :
  Q (mkEntry b (EvExecParams c q (firstn n ps))) ->
  keeps b Q (res <- PQexecParams c q n ps ;; checkResult res c msg).
Proof.
  intros HQ. apply keeps_bind; [apply keeps_PQexecParams, HQ | intros res].
  apply keeps_checkResult.
Qed.
End KeepsLibrary.

(** ** The menu actions, entry by entry *)

Lemma has_newline_app (a b : string) :
  has_newline (a ++ b)%string = has_newline a || has_newline b.
Proof.
  unfold has_newline. induction a as [|c a IH]; simpl; [reflexivity|].
  rewrite IH. apply orb_assoc.
Qed.

Lemma show_book_not_prompt (b : Book) (p : string) :
  has_newline p = false -> show_book b <> p.
Proof.
  intros Hp H. apply (f_equal has_newline) in H. rewrite Hp in H.
  unfold show_book in H. rewrite !has_newline_app in H.
  replace (has_newline endl) with true in H by reflexivity.
  rewrite !orb_true_r in H. discriminate H.
Qed.

Lemma literal_not_prompt (s p : string) :
  String.eqb s p = false -> s <> p.
Proof. intros H. apply String.eqb_neq, H. Qed.

Lemma action_entry_plain (b : bool) (tbl : string) (e : event) :
  match e with
  | Cerr _ | EvSetdbLogin _ _ _ _ _ _ | EvFinish _ => True
  | _ => False
  end -> action_entry b tbl (mkEntry b e).
Proof. destruct e; simpl; intros H; try contradiction; split; auto. Qed.

Lemma keeps_cout_literal (b : bool) (tbl s : string) :
  String.eqb s table_prompt || String.eqb s menu_prompt = false ->
  keeps b (action_entry b tbl) (cout s).
Proof.
  intros H. apply orb_false_iff in H. destruct H as [H1 H2].
  apply keeps_emit. split; [reflexivity|].
  simpl. split; apply literal_not_prompt; assumption.
Qed.

Lemma keeps_printBooks (b : bool) (tbl : string) (books : list Book) :
  keeps b (action_entry b tbl) (printBooks books).
Proof.
  assert (Heach : forall bs, keeps b (action_entry b tbl) (print_each bs)).
  { induction bs as [|x rest IH]; simpl; [apply keeps_ret|].
    apply keeps_bind; [|intros _; exact IH].
    apply keeps_emit. split; [reflexivity|].
    simpl. split; apply show_book_not_prompt; reflexivity. }
  destruct books as [|x rest].
  - simpl. apply keeps_cout_literal. reflexivity.
  - apply (Heach (x :: rest)).
Qed.

Ltac entry_ok :=
  split; [reflexivity | simpl; constructor].

Section ActionEntries.
Variable b : bool.
Variable this : DBManager.
Variable tbl : string.

Let Q := action_entry b tbl.
Let plain := action_entry_plain b tbl.

Lemma keeps_createDatabase (name : string) : keeps b Q (createDatabase this name).
Proof. apply keeps_admin_call; [exact plain | intros c; entry_ok]. Qed.

Lemma keeps_dropDatabase (name : string) : keeps b Q (dropDatabase this name).
Proof. apply keeps_admin_call; [exact plain | intros c; entry_ok]. Qed.

Lemma keeps_createTable : keeps b Q (createTable this tbl).
Proof. apply keeps_call; [exact plain | entry_ok]. Qed.

Lemma keeps_clearTable : keeps b Q (clearTable this tbl).
Proof. apply keeps_call; [exact plain | entry_ok]. Qed.

Lemma keeps_addBook (t a p : string) (y : Z) : keeps b Q (addBook this tbl t a p y).
Proof. apply keeps_call; [exact plain | entry_ok]. Qed.

Lemma keeps_updateBook (i : Z) (t a p : string) (y : Z) :
  keeps b Q (updateBook this tbl i t a p y).
Proof. apply keeps_call; [exact plain | entry_ok]. Qed.

Lemma keeps_deleteBookByTitle (t : string) : keeps b Q (deleteBookByTitle this tbl t).
Proof. apply keeps_call; [exact plain | entry_ok]. Qed.

Lemma keeps_createDBUser (u p m : string) : keeps b Q (createDBUser this u p m).
Proof. apply keeps_call; [exact plain | entry_ok]. Qed.

Lemma keeps_searchBookByTitle (filter : string) :
  keeps b Q (searchBookByTitle this tbl filter).
Proof.
  unfold searchBookByTitle.
  apply keeps_bind; [apply keeps_PQexecParams; [exact plain | entry_ok] | intros res].
  destruct (negb _); [apply keeps_throw | apply keeps_decode_from; exact plain].
Qed.
End ActionEntries.

Ltac action_step b l :=
  first
    [ apply keeps_ret
    | apply keeps_getline
    | apply (keeps_cin_int b _ (action_entry_plain b (tableName l)))
    | apply keeps_cout_literal; reflexivity
    | apply keeps_printBooks
    | apply keeps_createDatabase | apply keeps_dropDatabase
    | apply keeps_createTable | apply keeps_clearTable
    | apply keeps_addBook | apply keeps_updateBook
    | apply keeps_deleteBookByTitle | apply keeps_createDBUser
    | apply keeps_searchBookByTitle
    | apply keeps_bind; [| intros ?]
    | match goal with
      | |- keeps _ _ (if ?c then _ else _) => destruct c
      end ].

(** Every entry a menu action adds is an [action_entry] for the table of
    the session, and the action leaves [g_printNotices] alone. *)
Lemma keeps_menu_action (b : bool) (dbManager : DBManager) (l : Locals) (choice : Z) :
  keeps b (action_entry b (tableName l)) (menu_action dbManager l choice).
Proof.
  unfold menu_action. repeat (action_step b l).
Qed.

(** ** Results of the menu actions *)

Lemma returns_ret (A : Type) (P : A -> Prop) (a : A) : P a -> returns P (ret a).
Proof. intros H w; exact H. Qed.

Lemma returns_bind (A B : Type) (P : B -> Prop) (m : M A) (k : A -> M B) :
  (forall a, returns P (k a)) -> returns P (bind m k).
Proof.
  intros Hk w. unfold bind. destruct (m w) as [[a|ex] w1]; [apply Hk | exact I].
Qed.

Ltac returns_all :=
  repeat first [ apply returns_ret; reflexivity | apply returns_bind; intros ? ].

Ltac split_choice c k :=
  destruct (Z.eqb_spec c k) as [->|?];
  [ cbn [Z.eqb Pos.eqb andb orb negb]; try solve [returns_all]
  | cbn [andb orb negb] ].

(** An action hands the variables back untouched, except the exit entry,
    which sets [exitFlag]. *)
Lemma menu_action_returns (dbManager : DBManager) (l : Locals) (choice : Z) :
  returns
    (fun l' => l' = if (choice =? exit_choice (isAdmin l))%Z
                    then set_exitFlag true l else l)
    (menu_action dbManager l choice).
Proof.
  unfold menu_action, exit_choice.
  destruct (isAdmin l); rewrite ?andb_true_r, ?andb_false_r;
    cbn [andb orb negb];
    split_choice choice 1%Z; split_choice choice 2%Z; split_choice choice 3%Z;
    split_choice choice 4%Z; split_choice choice 5%Z; split_choice choice 6%Z;
    split_choice choice 7%Z; split_choice choice 8%Z; split_choice choice 9%Z;
    split_choice choice 10%Z; split_choice choice 11%Z;
    rewrite ?orb_false_r;
    repeat match goal with
           | H : ?c <> ?k |- context [(?c =? ?k)%Z] =>
               rewrite (proj2 (Z.eqb_neq c k) H)
           end;
    returns_all.
Qed.

(** ** One turn of the loop *)

Lemma getline_eq (w : World) :
  getline w = (Ok (hd ""%string (cin w)), set_cin (tl (cin w)) w).
Proof. destruct w as [c s g cs n t]; destruct c; reflexivity. Qed.

Lemma print_menu_spec (b : bool) (w : World) :
  print_menu b w = (Ok tt, snd (print_menu b w))
  /\ cin (snd (print_menu b w)) = cin w
  /\ g_printNotices (snd (print_menu b w)) = g_printNotices w
  /\ exists t,
       trace (snd (print_menu b w)) = trace w ++ t
       /\ Forall (fun x => notices_on x = g_printNotices w
                           /\ exists s, ev x = Cout s /\ s <> table_prompt) t.
Proof.
  destruct b; cbn;
    (split; [reflexivity|]; split; [reflexivity|]; split; [reflexivity|];
     eexists; split; [rewrite <- !app_assoc; reflexivity|];
     repeat constructor;
     eexists; (split; [reflexivity | apply literal_not_prompt; reflexivity])).
Qed.

Lemma bind_modify (A : Type) (f : World -> World) (k : unit -> M A) (w : World) :
  bind (modify f) k w = k tt (f w).
Proof. reflexivity. Qed.

Lemma bind_emit (A : Type) (e : event) (k : unit -> M A) (w : World) :
  bind (emit e) k w = k tt (snd (emit e w)).
Proof. reflexivity. Qed.

Lemma bind_print_menu (A : Type) (b : bool) (k : unit -> M A) (w : World) :
  bind (print_menu b) k w = k tt (snd (print_menu b w)).
Proof.
  unfold bind at 1. destruct (print_menu_spec b w) as [H _].
  destruct (print_menu b w) as [r w1]. simpl in H.
  injection H as ->. reflexivity.
Qed.

Lemma bind_getline (A : Type) (k : string -> M A) (w : World) :
  bind getline k w = k (hd ""%string (cin w)) (set_cin (tl (cin w)) w).
Proof. unfold bind. rewrite getline_eq. reflexivity. Qed.

Lemma bind_cin_int (A : Type) (k : Z -> M A) (w : World) :
  bind cin_int k w = k (chosen w) (set_cin (tl (cin w)) w).
Proof. unfold cin_int, bind. rewrite getline_eq. reflexivity. Qed.

(** One turn, read off the source: the menu is printed with the flag off,
    the choice is read, the action runs with the flag on, and the flag is
    switched off again on both exits of the [try]. *)
Lemma loop_body_eq (dbManager : DBManager) (l : Locals) (w : World) :
  loop_body dbManager l w =
  match menu_action dbManager l (chosen w) (at_dispatch (isAdmin l) w) with
  | (Ok l', w') => (Ok l', set_g_printNotices false w')
  | (Throw ex, w') =>
      (Ok l, set_g_printNotices false
               (snd (cerr ("Error: " ++ what ex ++ endl)%string w')))
  end.
Proof.
  unfold loop_body, at_dispatch, at_prompt.
  rewrite bind_modify, bind_print_menu, bind_cin_int.
  destruct (print_menu_spec (isAdmin l) (set_g_printNotices false w))
    as [_ [Hcin _]].
  unfold chosen at 1. rewrite Hcin.
  change (cin (set_g_printNotices false w)) with (cin w).
  fold (chosen w).
  unfold try_catch. rewrite bind_modify. unfold bind at 1.
  destruct (menu_action dbManager l (chosen w) _) as [[l'|ex] w']; reflexivity.
Qed.

Lemma menu_action_exit (dbManager : DBManager) (l : Locals) (w : World) :
  menu_action dbManager l (exit_choice (isAdmin l)) w = (Ok (set_exitFlag true l), w).
Proof.
  unfold menu_action, exit_choice. destruct (isAdmin l); reflexivity.
Qed.

Lemma action_entry_loop (tbl : string) (x : entry) :
  action_entry true tbl x -> loop_entry tbl x.
Proof.
  unfold action_entry, loop_entry. intros [Hs He].
  destruct (ev x); try exact I; try contradiction; try exact Hs.
  - destruct He as [H1 H2]. split; [exact H1 | intros H; contradiction].
  - split; assumption.
Qed.

Lemma same_session_refl (l : Locals) : same_session l l.
Proof. repeat split. Qed.

Lemma same_session_exit (l : Locals) : same_session l (set_exitFlag true l).
Proof. repeat split. Qed.

Lemma same_session_trans (a b c : Locals) :
  same_session a b -> same_session b c -> same_session a c.
Proof.
  unfold same_session. intros (A1 & A2 & A3 & A4 & A5) (B1 & B2 & B3 & B4 & B5).
  repeat split; congruence.
Qed.

(** A turn of the loop never throws; it hands back the variables with at
    most [exitFlag] changed, set exactly when the exit number was entered;
    the flag is off afterwards; what the turn adds to the trace is the
    menu, printed with the flag off, and then the action's entries. *)
Lemma loop_body_spec (dbManager : DBManager) (l : Locals) (w : World) :
  exists l',
    fst (loop_body dbManager l w) = Ok l'
    /\ l' = (if (chosen w =? exit_choice (isAdmin l))%Z then set_exitFlag true l else l)
    /\ g_printNotices (snd (loop_body dbManager l w)) = false
    /\ exists t,
         trace (snd (loop_body dbManager l w)) = trace w ++ t
         /\ Forall (loop_entry (tableName l)) t.
Proof.
  rewrite loop_body_eq.
  destruct (print_menu_spec (isAdmin l) (set_g_printNotices false w))
    as (_ & _ & _ & tm & Htm & Hm).
  assert (Hflag : g_printNotices (at_dispatch (isAdmin l) w) = true) by reflexivity.
  assert (Htr : trace (at_dispatch (isAdmin l) w) = trace w ++ tm) by exact Htm.
  assert (Hmenu : Forall (loop_entry (tableName l)) tm).
  { eapply Forall_impl; [|exact Hm]. intros x [Hs [s [He Hn]]].
    unfold loop_entry. rewrite He. split; [exact Hn | intros _; exact Hs]. }
  destruct (keeps_menu_action true dbManager l (chosen w) _ Hflag)
    as [Hon [ta [Hta Ha]]].
  assert (Hact : Forall (loop_entry (tableName l)) ta).
  { eapply Forall_impl; [|exact Ha]. apply action_entry_loop. }
  pose proof (menu_action_returns dbManager l (chosen w) (at_dispatch (isAdmin l) w)) as Hr.
  pose proof (menu_action_exit dbManager l (at_dispatch (isAdmin l) w)) as Hx.
  destruct (Z.eqb_spec (chosen w) (exit_choice (isAdmin l))) as [Heq|Hne].
  - rewrite Heq. rewrite Hx. simpl.
    exists (set_exitFlag true l). repeat split.
    exists tm. split; assumption.
  - destruct (menu_action dbManager l (chosen w) (at_dispatch (isAdmin l) w))
      as [[l'|ex] w'] eqn:Em; simpl in *.
    + exists l'. split; [reflexivity|]. split; [exact Hr|]. split; [reflexivity|].
      exists (tm ++ ta). split.
      * rewrite Hta, Htr. symmetry; apply app_assoc.
      * apply Forall_app; split; assumption.
    + exists l. repeat split.
      eexists ((tm ++ ta) ++ [_]). split.
      * rewrite Hta, Htr, <- !app_assoc. reflexivity.
      * apply Forall_app; split; [apply Forall_app; split; assumption|].
        constructor; [exact Hon | constructor].
Qed.

(** The loop: it never throws, keeps the variables but [exitFlag], ends
    with the flag off, and adds only loop entries. *)
Lemma menu_loop_spec (fuel : nat) (dbManager : DBManager) :
  forall (l : Locals) (w : World),
    g_printNotices w = false ->
    exists l' w',
      menu_loop fuel dbManager l w = (Ok l', w')
      /\ same_session l l'
      /\ g_printNotices w' = false
      /\ exists t, trace w' = trace w ++ t /\ Forall (loop_entry (tableName l)) t.
Proof.
  assert (Hstop : forall l w, g_printNotices w = false ->
            exists l' w', (Ok l, w) = (Ok l', w') /\ same_session l l'
              /\ g_printNotices w' = false
              /\ exists t, trace w' = trace w ++ t
                           /\ Forall (loop_entry (tableName l)) t).
  { intros l w Hf. exists l, w. split; [reflexivity|].
    split; [apply same_session_refl|]. split; [exact Hf|].
    exists []. split; [symmetry; apply app_nil_r | constructor]. }
  induction fuel as [|fuel IH]; intros l w Hf; simpl.
  - destruct (exitFlag l); apply Hstop, Hf.
  - destruct (exitFlag l); [apply Hstop, Hf|].
    unfold bind.
    destruct (loop_body_spec dbManager l w) as (l1 & H1 & Hl1 & Hf1 & t1 & Ht1 & HQ1).
    destruct (loop_body dbManager l w) as [r w1]. simpl in *. subst r.
    assert (Hs1 : same_session l l1).
    { rewrite Hl1. destruct (_ =? _)%Z;
        [apply same_session_exit | apply same_session_refl]. }
    destruct (IH l1 w1 Hf1) as (l2 & w2 & E2 & Hs2 & Hf2 & t2 & Ht2 & HQ2).
    exists l2, w2. split; [exact E2|].
    split; [eapply same_session_trans; eassumption|].
    split; [exact Hf2|].
    exists (t1 ++ t2). split.
    + rewrite Ht2, Ht1. symmetry; apply app_assoc.
    + apply Forall_app. split; [exact HQ1|].
      destruct Hs1 as (_ & _ & _ & Htbl & _). rewrite <- Htbl. exact HQ2.
Qed.

(** ** Connecting and provisioning *)

Lemma keeps_live_ret (A : Type) (a : A) : keeps_live (ret a).
Proof. intros w; reflexivity. Qed.

Lemma keeps_live_gets (A : Type) (f : World -> A) : keeps_live (gets f).
Proof. intros w; reflexivity. Qed.

Lemma keeps_live_emit (e : event) : keeps_live (emit e).
Proof. intros w; reflexivity. Qed.

Lemma keeps_live_bind (A B : Type) (m : M A) (k : A -> M B) :
  keeps_live m -> (forall a, keeps_live (k a)) -> keeps_live (bind m k).
Proof.
  intros Hm Hk w. unfold bind. specialize (Hm w).
  destruct (m w) as [[a|ex] w1]; simpl in *; [rewrite Hk|]; exact Hm.
Qed.

Lemma keeps_live_next_reply : keeps_live next_reply.
Proof. intros w; unfold next_reply; destruct (server w); reflexivity. Qed.

Lemma keeps_live_update_conn (c : PGconn) (f : ConnObj -> ConnObj) :
  keeps_live (modify (update_conn c f)).
Proof.
  intros w. unfold live, update_conn. simpl. rewrite map_map.
  apply map_ext. intros [c' o]. simpl. destruct (Nat.eqb c' c); reflexivity.
Qed.

Lemma keeps_live_deliver (msgs : list string) (h : bool) :
  keeps_live
    (deliver (if h then myNoticeProcessor g_printNotices else defaultNoticeProcessor)
       msgs).
Proof.
  induction msgs as [|m rest IH]; simpl; [apply keeps_live_ret|].
  apply keeps_live_bind; [|intros _; exact IH].
  destruct h.
  - unfold myNoticeProcessor. apply keeps_live_bind; [apply keeps_live_gets|].
    intros [|]; [apply keeps_live_emit | apply keeps_live_ret].
  - apply keeps_live_emit.
Qed.

Lemma keeps_live_run_command (c : PGconn) : keeps_live (run_command c).
Proof.
  unfold run_command.
  apply keeps_live_bind; [apply keeps_live_next_reply | intros r].
  apply keeps_live_bind; [apply keeps_live_update_conn | intros _].
  apply keeps_live_bind; [apply keeps_live_gets | intros h].
  apply keeps_live_bind; [apply keeps_live_deliver | intros _; apply keeps_live_ret].
Qed.

Lemma keeps_live_PQexecParams (c : PGconn) (q : string) (n : nat) (ps : list string) :
  keeps_live (PQexecParams c q n ps).
Proof.
  unfold PQexecParams. apply keeps_live_bind; [apply keeps_live_emit|].
  intros _. apply keeps_live_run_command.
Qed.

Lemma bind_next_reply (A : Type) (k : Reply -> M A) (w : World) :
  bind next_reply k w = k (next_answer w) (set_server (tl (server w)) w).
Proof.
  unfold bind, next_reply, next_answer.
  destruct w as [c s g cs n t]. destruct s; reflexivity.
Qed.

Lemma PQconnectdb_eq (conninfo : string) (w : World) :
  PQconnectdb conninfo w
  = (Ok (next_conn w),
     snd (emit (EvConnectdb (next_conn w) conninfo)
            (set_next_conn (S (next_conn w))
               (set_conns ((next_conn w,
                            mkConn (conn_ok (next_answer w)) (error (next_answer w)) false)
                           :: conns w)
                  (set_server (tl (server w)) w))))).
Proof.
  unfold next_answer. destruct w as [c s g cs n t]. destruct s; reflexivity.
Qed.

Lemma lookup_new_conn (e : event) (c : PGconn) (o : ConnObj) (w : World) :
  lookup_conn c (snd (emit e (set_next_conn (S c) (set_conns ((c, o) :: conns w) w))))
  = Some o.
Proof. unfold lookup_conn. simpl. rewrite Nat.eqb_refl. reflexivity. Qed.

(** With the flag off, the registered processor drops every notice. *)
Lemma deliver_silent (msgs : list string) (w : World) :
  g_printNotices w = false ->
  deliver (myNoticeProcessor g_printNotices) msgs w = (Ok tt, w).
Proof.
  intros Hf. induction msgs as [|m rest IH]; [reflexivity|].
  simpl. unfold bind at 1, myNoticeProcessor, bind, gets. rewrite Hf. exact IH.
Qed.

Lemma lookup_update_same (c : PGconn) (f : ConnObj -> ConnObj) (o : ConnObj) (w : World) :
  lookup_conn c w = Some o -> lookup_conn c (update_conn c f w) = Some (f o).
Proof.
  unfold lookup_conn, update_conn. simpl.
  induction (conns w) as [|[c' o'] cs IH]; simpl; [intros H; discriminate H|].
  destruct (Nat.eqb c' c) eqn:E; simpl; rewrite E; simpl.
  - intros H. injection H as ->. reflexivity.
  - exact IH.
Qed.

(** A command on a connection with the processor installed, sent while the
    flag is off: the result is the server's answer and nothing is written
    anywhere. *)
Lemma run_command_quiet (c : PGconn) (w : World) :
  g_printNotices w = false -> hooked_conn c w ->
  exists w',
    run_command c w
    = (Ok (mkResult (status (next_answer w)) (tuples (next_answer w))), w')
    /\ g_printNotices w' = false /\ trace w' = trace w /\ cin w' = cin w
    /\ hooked_conn c w'.
Proof.
  intros Hf [o [Hl Hh]].
  unfold run_command. rewrite bind_next_reply, bind_modify.
  set (f := fun o0 : ConnObj => mkConn (conn_good o0) (error (next_answer w)) (hooked o0)).
  set (w1 := update_conn c f (set_server (tl (server w)) w)).
  assert (Hl1 : lookup_conn c w1 = Some (f o)).
  { apply lookup_update_same. exact Hl. }
  unfold bind at 1, gets. rewrite Hl1. unfold f at 1. cbn [hooked]. rewrite Hh.
  unfold bind. rewrite (deliver_silent _ w1 Hf).
  exists w1. split; [reflexivity|]. split; [exact Hf|].
  split; [reflexivity|]. split; [reflexivity|].
  exists (f o). split; [exact Hl1 | exact Hh].
Qed.

Lemma PQexec_quiet (c : PGconn) (q : string) (w : World) :
  g_printNotices w = false -> hooked_conn c w ->
  exists res w',
    PQexec c q w = (Ok res, w')
    /\ g_printNotices w' = false
    /\ trace w' = trace w ++ [mkEntry false (EvExec c q)]
    /\ cin w' = cin w
    /\ hooked_conn c w'.
Proof.
  intros Hf Hh. unfold PQexec. rewrite bind_emit.
  destruct (run_command_quiet c (snd (emit (EvExec c q) w)) Hf Hh)
    as (w' & E & Hf' & Ht & Hc & Hh').
  rewrite E. eexists _, w'. split; [reflexivity|]. split; [exact Hf'|].
  split; [|split; [exact Hc | exact Hh']].
  rewrite Ht. simpl. rewrite Hf. reflexivity.
Qed.

Lemma keeps_delete_DBManager (this : DBManager) :
  keeps false setup_entry (delete_DBManager this).
Proof.
  unfold delete_DBManager, PQfinish.
  apply keeps_bind; [apply keeps_frame; intros w; reflexivity | intros _].
  apply keeps_emit. split; [reflexivity | exact I].
Qed.

(** The constructor, started with the flag off: nothing is printed, the
    only entries are the connection request and then the SET statement or
    the release; the connection it returns has the processor installed. *)
Lemma new_DBManager_quiet (d u p : string) (w : World) :
  g_printNotices w = false ->
  exists r w',
    new_DBManager d u p w = (r, w')
    /\ g_printNotices w' = false
    /\ extends setup_entry w w'
    /\ cin w' = cin w
    /\ match r with
       | Ok db => hooked_conn (conn_ db) w'
       | Throw _ => True
       end.
Proof.
  intros Hf. unfold new_DBManager, connect. cbv zeta.
  unfold bind at 1 2. rewrite PQconnectdb_eq.
  set (conninfo := ("host=localhost port=5432 dbname=" ++ d ++ " user=" ++ u
                    ++ " password=" ++ p)%string).
  set (o := mkConn _ _ _).
  pose proof (lookup_new_conn (EvConnectdb (next_conn w) conninfo)
                (next_conn w) o (set_server (tl (server w)) w)) as Hl.
  change (next_conn (set_server (tl (server w)) w)) with (next_conn w) in Hl.
  change (conns (set_server (tl (server w)) w)) with (conns w) in Hl.
  set (w1 := snd (emit _ _)) in *.
  assert (Hf1 : g_printNotices w1 = false) by exact Hf.
  assert (Ht1 : trace w1 = trace w ++ [mkEntry false (EvConnectdb (next_conn w) conninfo)]).
  { unfold w1. simpl. rewrite Hf. reflexivity. }
  unfold bind at 1, PQstatus, gets. rewrite Hl.
  unfold o at 1. cbn [conn_good].
  destruct (conn_ok (next_answer w)); cbn [negb].
  - unfold PQsetNoticeProcessor. rewrite bind_modify.
    set (w2 := update_conn (next_conn w) _ w1).
    assert (Hh2 : hooked_conn (next_conn w) w2).
    { eexists. split; [apply lookup_update_same; exact Hl | reflexivity]. }
    destruct (PQexec_quiet (next_conn w) "SET client_min_messages TO warning;" w2 Hf1 Hh2)
      as (res & w3 & E & Hf3 & Ht3 & Hc3 & Hh3).
    unfold bind at 1. rewrite E.
    eexists _, w3. split; [reflexivity|].
    split; [exact Hf3|]. split; [|split; [exact Hc3 | exact Hh3]].
    eexists. split.
    + rewrite Ht3. change (trace w2) with (trace w1). rewrite Ht1, <- app_assoc.
      reflexivity.
    + constructor; [split; [reflexivity | exact I]|].
      constructor; [split; [reflexivity | simpl; left; reflexivity] | constructor].
  - unfold bind at 1, PQerrorMessage, gets. cbv beta. rewrite Hl.
    eexists _, _. split; [reflexivity|].
    split; [exact Hf|]. split; [|split; [reflexivity | exact I]].
    eexists. split.
    + simpl. rewrite Hf. rewrite <- app_assoc. reflexivity.
    + constructor; [split; [reflexivity | exact I]|].
      constructor; [split; [reflexivity | exact I] | constructor].
Qed.

(** The provisioning script, sent with the flag off on the connection the
    constructor returned: nothing is printed. *)
Lemma initProcedures_quiet (this : DBManager) (w : World) :
  g_printNotices w = false -> hooked_conn (conn_ this) w ->
  exists r w',
    initProcedures this w = (r, w')
    /\ g_printNotices w' = false
    /\ extends setup_entry w w'
    /\ cin w' = cin w.
Proof.
  intros Hf Hh. unfold initProcedures.
  destruct (PQexec_quiet (conn_ this) proceduresSQL w Hf Hh)
    as (res & w1 & E & Hf1 & Ht1 & Hc1 & _).
  unfold bind at 1. rewrite E.
  assert (Hk : exists r, checkResult res (conn_ this)
                           "Error initializing stored procedures" w1 = (r, w1)).
  { unfold checkResult, bind, PQerrorMessage, gets.
    destruct (_ && _); eexists; reflexivity. }
  destruct Hk as [r Hk]. rewrite Hk.
  exists r, w1. split; [reflexivity|]. split; [exact Hf1|]. split; [|exact Hc1].
  eexists. split; [exact Ht1|].
  constructor; [split; [reflexivity | simpl; right; left; reflexivity] | constructor].
Qed.

Lemma setup_entry_run (tbl : string) (x : entry) : setup_entry x -> run_entry tbl x.
Proof.
  unfold setup_entry, run_entry. intros [Hs He].
  destruct (ev x); try exact I; try contradiction; try exact Hs.
  split; assumption.
Qed.

Lemma setup_entry_no_prompt (x : entry) : setup_entry x -> no_table_prompt x.
Proof.
  unfold setup_entry, no_table_prompt. intros [_ He] H. rewrite H in He. exact He.
Qed.

Lemma loop_entry_no_prompt (tbl : string) (x : entry) :
  loop_entry tbl x -> no_table_prompt x.
Proof.
  unfold loop_entry, no_table_prompt. intros He H. rewrite H in He.
  destruct He as [He _]. apply He. reflexivity.
Qed.

Lemma loop_entry_run (tbl : string) (x : entry) : loop_entry tbl x -> run_entry tbl x.
Proof.
  unfold loop_entry, run_entry. intros H.
  destruct (ev x); try exact I; try contradiction; try exact H.
  - destruct H as [_ H]. exact H.
  - left. exact H.
Qed.

(** ** The whole session *)

Lemma extends_refl (Q : entry -> Prop) (w : World) : extends Q w w.
Proof. exists []. split; [symmetry; apply app_nil_r | constructor]. Qed.

Lemma extends_trans (Q : entry -> Prop) (a b c : World) :
  extends Q a b -> extends Q b c -> extends Q a c.
Proof.
  intros [t1 [H1 Q1]] [t2 [H2 Q2]]. exists (t1 ++ t2). split.
  - rewrite H2, H1. symmetry; apply app_assoc.
  - apply Forall_app; split; assumption.
Qed.

Lemma extends_weaken (Q Q' : entry -> Prop) (a b : World) :
  (forall x, Q x -> Q' x) -> extends Q a b -> extends Q' a b.
Proof.
  intros H [t [Ht HQ]]. exists t. split; [exact Ht|].
  eapply Forall_impl; [exact H | exact HQ].
Qed.

Lemma extends_emit (Q : entry -> Prop) (e : event) (w : World) :
  Q (mkEntry (g_printNotices w) e) -> extends Q w (snd (emit e w)).
Proof.
  intros H. exists [mkEntry (g_printNotices w) e]. split; [reflexivity|].
  constructor; [exact H | constructor].
Qed.

Lemma keeps_extends (b : bool) (Q : entry -> Prop) (A : Type) (m : M A) (w : World) :
  keeps b Q m -> g_printNotices w = b ->
  g_printNotices (snd (m w)) = b /\ extends Q w (snd (m w)).
Proof. intros H Hb. exact (H w Hb). Qed.

(** The body of the [try] once the procedures are provisioned: the table
    name is the next line of input, and the loop runs with it. *)
Lemma session_body_spec (fuel : nat) (dbManager : DBManager) (d u p : string)
    (w : World) :
  g_printNotices w = false ->
  exists r w',
    (cout ("Connection successful." ++ endl)%string ;;
     cout "Enter table name for operations: " ;;
     tableName <- getline ;;
     l <- menu_loop fuel dbManager
            (mkLocals d u p tableName (String.eqb u "admin") false) ;;
     (if exitFlag l then delete_DBManager dbManager else ret tt) ;;
     ret l) w = (r, w')
    /\ g_printNotices w' = false
    /\ extends (run_entry (hd ""%string (cin w))) w w'
    /\ prompted_once w w'
    /\ match r with
       | Ok l => same_session (mkLocals d u p (hd ""%string (cin w))
                                 (String.eqb u "admin") false) l
       | Throw _ => True
       end.
Proof.
  intros Hf. set (tbl := hd ""%string (cin w)).
  unfold cout. rewrite !bind_emit, bind_getline.
  set (w1 := snd (emit (Cout ("Connection successful." ++ endl)%string) w)).
  set (w2 := snd (emit (Cout "Enter table name for operations: ") w1)).
  change (cin w2) with (cin w). fold tbl.
  set (w3 := set_cin (tl (cin w)) w2).
  assert (H03 : extends (run_entry tbl) w w3).
  { apply extends_trans with w1; [apply extends_emit | ].
    - simpl. intros H; discriminate H.
    - change (trace w3) with (trace w2).
      destruct (extends_emit (run_entry tbl)
                  (Cout "Enter table name for operations: ") w1) as [t [Ht HQ]].
      + simpl. intros H; discriminate H.
      + exists t. split; assumption. }
  assert (Hf3 : g_printNotices w3 = false) by exact Hf.
  set (l0 := mkLocals d u p tbl (String.eqb u "admin") false).
  destruct (menu_loop_spec fuel dbManager l0 w3 Hf3)
    as (l' & w4 & E4 & Hs & Hf4 & Hx4).
  unfold bind at 1. rewrite E4.
  assert (H04 : extends (run_entry tbl) w w4).
  { apply extends_trans with w3; [exact H03|].
    eapply extends_weaken; [|exact Hx4]. apply loop_entry_run. }
  assert (H24 : extends no_table_prompt w2 w4).
  { eapply extends_weaken; [|exact Hx4]. apply loop_entry_no_prompt. }
  assert (Honce : forall w5, extends no_table_prompt w4 w5 -> prompted_once w w5).
  { intros w5 H45.
    destruct (extends_trans _ _ _ _ H24 H45) as [t [Ht HQ]].
    exists t. split; [|exact HQ].
    rewrite Ht. unfold w2, w1. simpl. rewrite <- !app_assoc. reflexivity. }
  destruct (exitFlag l').
  - destruct (keeps_extends _ _ _ _ w4 (keeps_delete_DBManager dbManager) Hf4)
      as [Hf5 Hx5].
    unfold bind.
    destruct (delete_DBManager dbManager w4) as [[[]|ex] w5]; simpl in *.
    + exists (Ok l'), w5. split; [reflexivity|]. split; [exact Hf5|].
      split; [|split; [|exact Hs]].
      * apply extends_trans with w4; [exact H04|].
        eapply extends_weaken; [|exact Hx5]. apply setup_entry_run.
      * apply Honce. eapply extends_weaken; [|exact Hx5]. apply setup_entry_no_prompt.
    + exists (Throw ex), w5. split; [reflexivity|]. split; [exact Hf5|].
      split; [|split; [|exact I]].
      * apply extends_trans with w4; [exact H04|].
        eapply extends_weaken; [|exact Hx5]. apply setup_entry_run.
      * apply Honce. eapply extends_weaken; [|exact Hx5]. apply setup_entry_no_prompt.
  - exists (Ok l'), w4. split; [reflexivity|]. split; [exact Hf4|].
    split; [exact H04 |]. split; [|exact Hs].
    apply Honce, extends_refl.
Qed.

(** The session after the prompts: connected or not, it ends with the flag
    off; its entries are run entries for the table named by the next line
    of input; the table prompt is printed at most once; when it returns,
    the prompt was printed and the variables hold the entered values and
    the role derived from the user name. *)
Lemma session_spec (fuel : nat) (d u p : string) (w : World) :
  g_printNotices w = false ->
  exists r w',
    session fuel d u p w = (r, w')
    /\ g_printNotices w' = false
    /\ extends (run_entry (hd ""%string (cin w))) w w'
    /\ prompted_at_most_once w w'
    /\ match r with
       | Ok l =>
           same_session (mkLocals d u p (hd ""%string (cin w))
                           (String.eqb u "admin") false) l
           /\ exists wm, extends no_table_prompt w wm /\ prompted_once wm w'
       | Throw _ => True
       end.
Proof.
  intros Hf. set (tbl := hd ""%string (cin w)).
  unfold session, session_with. unfold bind at 1.
  destruct (new_DBManager_quiet d u p w Hf) as (r1 & w1 & E1 & Hf1 & Hx1 & Hc1 & Hh1).
  rewrite E1. destruct r1 as [db|ex].
  2:{ exists (Throw ex), w1. split; [reflexivity|]. split; [exact Hf1|].
      split; [|split; [|exact I]].
      - eapply extends_weaken; [|exact Hx1]. apply setup_entry_run.
      - left. eapply extends_weaken; [|exact Hx1]. apply setup_entry_no_prompt. }
  assert (H01 : extends (run_entry tbl) w w1).
  { eapply extends_weaken; [|exact Hx1]. apply setup_entry_run. }
  assert (N01 : extends no_table_prompt w w1).
  { eapply extends_weaken; [|exact Hx1]. apply setup_entry_no_prompt. }
  unfold try_catch. unfold bind at 1.
  destruct (initProcedures_quiet db w1 Hf1 Hh1) as (r2 & w2 & E2 & Hf2 & Hx2 & Hc2).
  rewrite E2. destruct r2 as [[]|ex].
  - assert (H02 : extends (run_entry tbl) w w2).
    { apply extends_trans with w1; [exact H01|].
      eapply extends_weaken; [|exact Hx2]. apply setup_entry_run. }
    assert (N02 : extends no_table_prompt w w2).
    { apply extends_trans with w1; [exact N01|].
      eapply extends_weaken; [|exact Hx2]. apply setup_entry_no_prompt. }
    destruct (session_body_spec fuel db d u p w2 Hf2)
      as (r & w3 & E3 & Hf3 & Hx3 & Hp3 & Hr).
    assert (Htbl : hd ""%string (cin w2) = tbl).
    { unfold tbl. rewrite Hc2, Hc1. reflexivity. }
    rewrite Htbl in Hx3, Hr.
    rewrite E3.
    assert (H03 : extends (run_entry tbl) w w3).
    { apply extends_trans with w2; assumption. }
    destruct r as [l|ex].
    + exists (Ok l), w3.
      split; [reflexivity|]. split; [exact Hf3|]. split; [exact H03|].
      split; [right; exists w2; split; assumption|].
      split; [exact Hr|]. exists w2. split; assumption.
    + destruct (keeps_extends _ _ _ _ w3 (keeps_delete_DBManager db) Hf3)
        as [Hf4 Hx4].
      assert (Hp4 : prompted_once w2 (snd (delete_DBManager db w3))).
      { destruct Hp3 as [t3 [Ht3 HQ3]]. destruct Hx4 as [t4 [Ht4 HQ4]].
        exists (t3 ++ t4). split.
        - rewrite Ht4, Ht3, <- app_assoc. reflexivity.
        - apply Forall_app. split; [exact HQ3|].
          eapply Forall_impl; [|exact HQ4]. apply setup_entry_no_prompt. }
      unfold bind.
      destruct (delete_DBManager db w3) as [[[]|ex'] w4]; simpl in *;
        (eexists _, w4; split; [reflexivity|]; split; [exact Hf4|];
         split; [|split; [right; exists w2; split; assumption | exact I]];
         apply extends_trans with w3; [exact H03|];
         eapply extends_weaken; [|exact Hx4]; apply setup_entry_run).
  - destruct (keeps_extends _ _ _ _ w2 (keeps_delete_DBManager db) Hf2)
      as [Hf4 Hx4].
    assert (N04 : extends no_table_prompt w (snd (delete_DBManager db w2))).
    { apply extends_trans with w1; [exact N01|].
      apply extends_trans with w2;
        (eapply extends_weaken; [|eassumption]; apply setup_entry_no_prompt). }
    unfold bind.
    destruct (delete_DBManager db w2) as [[[]|ex'] w4]; simpl in *;
      (eexists _, w4; split; [reflexivity|]; split; [exact Hf4|];
       split; [|split; [left; exact N04 | exact I]];
       apply extends_trans with w1; [exact H01|];
       apply extends_trans with w2;
       (eapply extends_weaken; [|eassumption]; apply setup_entry_run)).
Qed.

(** The three prompts consume the first three lines of input. *)
Lemma main_try_eq (fuel : nat) (w : World) :
  main_try fuel w =
  session fuel (nth 0 (cin w) ""%string) (nth 1 (cin w) ""%string)
    (nth 2 (cin w) ""%string) (after_prompts w).
Proof.
  unfold main_try, after_prompts.
  destruct w as [c s g cs n t].
  destruct c as [|a [|b [|c rest]]]; reflexivity.
Qed.

Lemma after_prompts_spec (w : World) :
  g_printNotices (after_prompts w) = g_printNotices w
  /\ cin (after_prompts w) = skipn 3 (cin w)
  /\ server (after_prompts w) = server w
  /\ extends (fun x => exists s, ev x = Cout s /\ s <> menu_prompt /\ s <> table_prompt)
       w (after_prompts w).
Proof.
  unfold after_prompts.
  destruct w as [c s g cs n t].
  destruct c as [|a [|b [|c rest]]]; cbn;
    (split; [reflexivity|]; split; [reflexivity|]; split; [reflexivity|];
     eexists; split; [cbn; rewrite <- !app_assoc; reflexivity|];
     repeat constructor;
     eexists; (split; [reflexivity |
                       split; apply literal_not_prompt; reflexivity])).
Qed.

Lemma nth_3_skipn (l : list string) :
  hd ""%string (skipn 3 l) = nth 3 l ""%string.
Proof. destruct l as [|a [|b [|c [|d r]]]]; reflexivity. Qed.

(** Everything about a run of the [try] block of [main] that the claims
    use. *)
Lemma main_try_spec (fuel : nat) (w : World) :
  g_printNotices w = false ->
  exists r w',
    main_try fuel w = (r, w')
    /\ g_printNotices w' = false
    /\ extends (run_entry (nth 3 (cin w) ""%string)) w w'
    /\ prompted_at_most_once w w'
    /\ match r with
       | Ok l =>
           same_session
             (mkLocals (nth 0 (cin w) ""%string) (nth 1 (cin w) ""%string)
                (nth 2 (cin w) ""%string) (nth 3 (cin w) ""%string)
                (String.eqb (nth 1 (cin w) ""%string) "admin") false) l
           /\ exists wm, extends no_table_prompt w wm /\ prompted_once wm w'
       | Throw _ => True
       end.
Proof.
  intros Hf. rewrite main_try_eq.
  destruct (after_prompts_spec w) as (Hg & Hc & _ & Hx).
  assert (Hf0 : g_printNotices (after_prompts w) = false) by (rewrite Hg; exact Hf).
  assert (N0 : extends no_table_prompt w (after_prompts w)).
  { eapply extends_weaken; [|exact Hx].
    intros x [s [He [_ Hn]]]. unfold no_table_prompt. rewrite He.
    intros H. injection H as H. contradiction. }
  destruct (session_spec fuel (nth 0 (cin w) ""%string) (nth 1 (cin w) ""%string)
              (nth 2 (cin w) ""%string) (after_prompts w) Hf0)
    as (r & w' & E & Hf' & Hx' & Hp & Hr).
  rewrite Hc, nth_3_skipn in Hx', Hr.
  exists r, w'. split; [exact E|]. split; [exact Hf'|]. split; [|split].
  - apply extends_trans with (after_prompts w); [|exact Hx'].
    eapply extends_weaken; [|exact Hx].
    intros x [s [He [Hn _]]]. unfold run_entry. rewrite He. intros H; contradiction.
  - destruct Hp as [Hp | [wm [Hm Hp]]].
    + left. exact (extends_trans _ _ _ _ N0 Hp).
    + right. exists wm. split; [exact (extends_trans _ _ _ _ N0 Hm) | exact Hp].
  - destruct r as [l|ex]; [|exact I].
    destruct Hr as [Hs [wm [Hm Hp']]]. split; [exact Hs|].
    exists wm. split; [exact (extends_trans _ _ _ _ N0 Hm) | exact Hp'].
Qed.

(** ** Reading requests off a trace *)





(** ** Whole runs *)

Lemma main_spec (fuel : nat) (w : World) :
  g_printNotices w = false ->
  g_printNotices (snd (main fuel w)) = false
  /\ extends (run_entry (nth 3 (cin w) ""%string)) w (snd (main fuel w)).
Proof.
  intros Hf. unfold main.
  destruct (main_try_spec fuel w Hf) as (r & w' & E & Hf' & Hx & _ & _).
  rewrite E. destruct r as [l|ex].
  - destruct (exitFlag l); split; assumption.
  - split; [exact Hf'|].
    apply extends_trans with w'; [exact Hx|].
    apply extends_emit. right. eexists. reflexivity.
Qed.

Lemma run_trace (fuel : nat) (input : list string) (script : list Reply) :
  Forall (run_entry (nth 3 input ""%string))
    (trace (snd (main fuel (initial_world input script)))).
Proof.
  destruct (main_spec fuel (initial_world input script) eq_refl)
    as [_ [t [Ht HQ]]].
  rewrite Ht. exact HQ.
Qed.

Lemma action_call_literal (tbl q : string) (ps : list string) :
  action_call tbl q ps -> In q action_commands.
Proof. intros H; destruct H; simpl; tauto. Qed.



(** ** The commands of each action *)

Lemma commands_of_app (a b : list entry) :
  commands_of (a ++ b) = commands_of a ++ commands_of b.
Proof. unfold commands_of. apply flat_map_app. Qed.

Lemma commands_none (t : list entry) : Forall no_command t -> commands_of t = [].
Proof.
  induction 1 as [|x t Hx _ IH]; [reflexivity|].
  unfold commands_of in *. simpl. rewrite IH.
  unfold no_command in Hx. destruct (ev x); try reflexivity. contradiction.
Qed.

Lemma no_command_plain (b : bool) (e : event) :
  match e with
  | Cerr _ | EvSetdbLogin _ _ _ _ _ _ | EvFinish _ => True
  | _ => False
  end -> no_command (mkEntry b e).
Proof. destruct e; simpl; intros H; try contradiction; exact I. Qed.

Lemma quiet_sends_nothing (A : Type) (m : M A) (w : World) :
  (forall b, keeps b no_command m) -> sends m w [].
Proof.
  intros H. destruct (H (g_printNotices w) w eq_refl) as [_ [t [Ht HQ]]].
  unfold sends. rewrite Ht, commands_of_app, (commands_none t HQ). reflexivity.
Qed.

Lemma bind_assoc (A B C : Type) (m : M A) (f : A -> M B) (g : B -> M C) (w : World) :
  bind (bind m f) g w = bind m (fun a => bind (f a) g) w.
Proof. unfold bind. destruct (m w) as [[a|ex] w1]; reflexivity. Qed.

Lemma call_sends (A : Type) (c : PGconn) (q : string) (n : nat) (ps : list string)
    (k : PGresult -> M A) (w : World) :
  (forall res b, keeps b no_command (k res)) ->
  sends (bind (PQexecParams c q n ps) k) w [(q, firstn n ps)].
Proof.
  intros Hk. unfold sends.
  set (w1 := snd (emit (EvExecParams c q (firstn n ps)) w)).
  change (bind (PQexecParams c q n ps) k w) with (bind (run_command c) k w1).
  assert (Hq : keeps (g_printNotices w1) no_command (bind (run_command c) k)).
  { apply keeps_bind; [apply keeps_run_command, no_command_plain | intros res; apply Hk]. }
  destruct (Hq w1 eq_refl) as [_ [t [Ht HQ]]].
  rewrite Ht, commands_of_app, (commands_none t HQ), app_nil_r.
  unfold w1. simpl. rewrite commands_of_app. reflexivity.
Qed.

Lemma keeps_printBooks_quiet (b : bool) (books : list Book) :
  keeps b no_command (printBooks books).
Proof.
  assert (Heach : forall bs, keeps b no_command (print_each bs)).
  { induction bs as [|x rest IH]; simpl; [apply keeps_ret|].
    apply keeps_bind; [apply keeps_emit; exact I | intros _; exact IH]. }
  destruct books as [|x rest]; [apply keeps_emit; exact I | apply (Heach (x :: rest))].
Qed.

Lemma PQsetdbLogin_eq (h p d u pw : string) (w : World) :
  PQsetdbLogin h p d u pw w
  = (Ok (next_conn w),
     snd (emit (EvSetdbLogin (next_conn w) h p d u pw)
            (set_next_conn (S (next_conn w))
               (set_conns ((next_conn w,
                            mkConn (conn_ok (next_answer w)) (error (next_answer w)) false)
                           :: conns w)
                  (set_server (tl (server w)) w))))).
Proof.
  unfold next_answer. destruct w as [c s g cs n t]. destruct s; reflexivity.
Qed.

(** The two administrative actions: the command is sent when the
    connection to postgres is made, and nothing is sent when it is not. *)
Lemma admin_call_sends (this : DBManager) (q name msg : string) (w : World) :
  sends
    (connTemp <- PQsetdbLogin "localhost" "5432" "postgres" (user_ this) (password_ this) ;;
     ok <- PQstatus connTemp ;;
     if negb ok then
       error <- PQerrorMessage connTemp ;;
       PQfinish connTemp ;;
       throw (runtime_error ("Error connecting to postgres: " ++ error)%string)
     else
       res <- PQexecParams connTemp q 1 [name] ;;
       checkResult res connTemp msg ;;
       PQfinish connTemp)
    w (if conn_ok (next_answer w) then [(q, [name])] else []).
Proof.
  unfold sends. unfold bind at 1. rewrite PQsetdbLogin_eq.
  set (w1 := snd (emit _ _)).
  assert (Hc : commands_of (trace w1) = commands_of (trace w)).
  { unfold w1. simpl. rewrite commands_of_app. simpl. apply app_nil_r. }
  unfold bind at 1, PQstatus, gets, lookup_conn.
  assert (Hl : find (fun p : nat * ConnObj => Nat.eqb (fst p) (next_conn w)) (conns w1)
               = Some (next_conn w,
                       mkConn (conn_ok (next_answer w)) (error (next_answer w)) false)).
  { unfold w1. simpl. rewrite Nat.eqb_refl. reflexivity. }
  rewrite Hl. simpl option_map. cbv iota beta.
  destruct (conn_ok (next_answer w)); simpl negb; cbv iota.
  - rewrite <- Hc. apply call_sends. intros res b.
    apply keeps_bind; [apply keeps_checkResult|].
    intros _. apply keeps_PQfinish, no_command_plain.
  - rewrite <- Hc. apply quiet_sends_nothing. intros b.
    apply keeps_bind; [apply keeps_gets | intros e].
    apply keeps_bind; [apply keeps_PQfinish, no_command_plain | intros _].
    apply keeps_throw.
Qed.

Lemma menu_action_8 (dbManager : DBManager) (l : Locals) :
  menu_action dbManager l 8
  = (cout "Enter part of the Title to search: " ;;
     title <- getline ;;
     books <- searchBookByTitle dbManager (tableName l) title ;;
     printBooks books ;;
     ret l).
Proof. unfold menu_action. destruct (isAdmin l); reflexivity. Qed.

Lemma menu_action_9 (dbManager : DBManager) (l : Locals) :
  menu_action dbManager l 9
  = (books <- searchBookByTitle dbManager (tableName l) "" ;;
     printBooks books ;;
     ret l).
Proof. unfold menu_action. destruct (isAdmin l); reflexivity. Qed.

Lemma search_sends_its_literal (this : DBManager) (tbl filter : string)
    (w : World) :
  sends (searchBookByTitle this tbl filter) w
    [("SELECT * FROM sp_search_book_by_title($1, $2)"%string, [tbl; filter])].
Proof.
  unfold searchBookByTitle. cbv zeta. apply call_sends.
  intros res b.
  destruct (negb _); [apply keeps_throw | apply keeps_decode_from].
Qed.

Ltac simple_call :=
  cbv zeta; apply call_sends; intros res b; apply keeps_checkResult.

(** ** Termination of a run *)

Lemma menu_loop_returns (fuel : nat) (dbManager : DBManager) :
  forall l w, exists l' w', menu_loop fuel dbManager l w = (Ok l', w').
Proof.
  induction fuel as [|fuel IH]; intros l w; simpl.
  - destruct (exitFlag l); exists l, w; reflexivity.
  - destruct (exitFlag l); [exists l, w; reflexivity|].
    unfold bind.
    destruct (loop_body_spec dbManager l w) as (l1 & H1 & _).
    destruct (loop_body dbManager l w) as [r w1]. simpl in H1. subst r.
    apply IH.
Qed.

(** Once the loop has ended within [fuel] turns, more fuel changes
    nothing. *)
Lemma menu_loop_more_fuel (fuel : nat) (dbManager : DBManager) :
  forall l w l' w',
    menu_loop fuel dbManager l w = (Ok l', w') ->
    exitFlag l' = true ->
    forall k, menu_loop (fuel + k) dbManager l w = (Ok l', w').
Proof.
  induction fuel as [|fuel IH]; intros l w l' w' E Hx k.
  - simpl in E.
    assert (El : (Ok l, w) = (Ok l', w')) by (destruct (exitFlag l); exact E).
    injection El as <- <-.
    simpl. destruct k; simpl; rewrite Hx; reflexivity.
  - simpl in *. destruct (exitFlag l); [exact E|].
    unfold bind in *.
    destruct (loop_body dbManager l w) as [[l1|ex] w1]; [|exact E].
    apply IH; assumption.
Qed.

Lemma bind_cong_result (A B : Type) (m : M A) (k1 k2 : A -> M B) (w : World)
    (out : result B * World) :
  (forall a w1, m w = (Ok a, w1) -> k1 a w1 = out -> k2 a w1 = out) ->
  bind m k1 w = out -> bind m k2 w = out.
Proof.
  unfold bind. intros H. destruct (m w) as [[a|ex] w1]; [apply H; reflexivity|].
  exact (fun E => E).
Qed.

Lemma session_with_agree (f g : DBManager -> Locals -> M Locals)
    (d u p : string) (w : World) (r : result Locals) (w' : World) :
  (forall db l w1, exists l' w1', f db l w1 = (Ok l', w1')) ->
  (forall db l w1 l' w1',
      f db l w1 = (Ok l', w1') -> exitFlag l' = true -> g db l w1 = (Ok l', w1')) ->
  session_with f d u p w = (r, w') ->
  finished r = true ->
  session_with g d u p w = (r, w').
Proof.
  intros Hret Hfg E Hfin. revert E. unfold session_with. cbv zeta.
  apply bind_cong_result. intros db w1 _.
  set (body := fun loop : DBManager -> Locals -> M Locals =>
         initProcedures db ;;
         cout ("Connection successful." ++ endl)%string ;;
         cout "Enter table name for operations: " ;;
         tableName <- getline ;;
         l <- loop db (mkLocals d u p tableName (String.eqb u "admin") false) ;;
         (if exitFlag l then delete_DBManager db else ret tt) ;;
         ret l).
  change (try_catch (body f) (fun ex => delete_DBManager db ;; throw ex) w1 = (r, w')
          -> try_catch (body g) (fun ex => delete_DBManager db ;; throw ex) w1 = (r, w')).
  assert (Hbody : forall out, body f w1 = out -> finished (fst out) = true ->
                              body g w1 = out).
  { intros out. unfold body. intros Eb Ho. revert Eb.
    apply bind_cong_result. intros [] w2 _.
    unfold cout. rewrite !bind_emit, !bind_getline.
    set (w3 := set_cin _ _). set (l0 := mkLocals _ _ _ _ _ _).
    unfold bind at 1 3.
    destruct (Hret db l0 w3) as (l' & w4 & Ef). rewrite Ef.
    destruct (exitFlag l') eqn:Hx.
    - rewrite (Hfg _ _ _ _ _ Ef Hx), Hx. exact (fun E => E).
    - unfold bind, ret. intros E. subst out. simpl in Ho.
      rewrite Hx in Ho. discriminate Ho. }
  unfold try_catch. destruct (body f w1) as [rb wb] eqn:Eb.
  specialize (Hbody (rb, wb) eq_refl). simpl in Hbody.
  destruct rb as [a|ex].
  - intros E. injection E as <- <-. rewrite (Hbody Hfin). reflexivity.
  - rewrite (Hbody eq_refl). exact (fun E => E).
Qed.

Lemma main_more_fuel (fuel : nat) (w : World) (code : Z) (w' : World) :
  main fuel w = (Some code, w') ->
  forall k, main (fuel + k) w = (Some code, w').
Proof.
  unfold main. intros E k.
  destruct (main_try fuel w) as [r w1] eqn:Er.
  assert (Hfin : finished r = true).
  { destruct r as [l|ex]; [|reflexivity]. simpl.
    destruct (exitFlag l); [reflexivity | discriminate E]. }
  rewrite main_try_eq in Er |- *.
  unfold session in *.
  rewrite (session_with_agree (menu_loop fuel) (menu_loop (fuel + k))
             _ _ _ _ r w1).
  - exact E.
  - intros db l w0. apply menu_loop_returns.
  - intros db l w0 l' w0' E0 Hx. apply menu_loop_more_fuel; assumption.
  - exact Er.
  - exact Hfin.
Qed.

(** A refused primary connection: the constructor throws with the server's
    text. *)
Lemma new_DBManager_refused (d u p : string) (w : World) :
  conn_ok (next_answer w) = false ->
  fst (new_DBManager d u p w)
  = Throw (runtime_error
             ("Error connecting to DB: " ++ error (next_answer w))%string).
Proof.
  intros Hno. unfold new_DBManager, connect. cbv zeta.
  unfold bind at 1 2. rewrite PQconnectdb_eq.
  set (o := mkConn _ _ _).
  pose proof (lookup_new_conn
                (EvConnectdb (next_conn w)
                   ("host=localhost port=5432 dbname=" ++ d ++ " user=" ++ u
                    ++ " password=" ++ p)%string)
                (next_conn w) o (set_server (tl (server w)) w)) as Hl.
  change (next_conn (set_server (tl (server w)) w)) with (next_conn w) in Hl.
  change (conns (set_server (tl (server w)) w)) with (conns w) in Hl.
  set (w1 := snd (emit _ _)) in *.
  unfold bind at 1, PQstatus, gets. rewrite Hl.
  unfold o at 1. cbn [conn_good]. rewrite Hno. cbn [negb].
  unfold bind at 1, PQerrorMessage, gets. cbv beta. rewrite Hl.
  reflexivity.
Qed.

Lemma main_try_refused (fuel : nat) (w : World) :
  conn_ok (next_answer w) = false ->
  fst (main_try fuel w)
  = Throw (runtime_error
             ("Error connecting to DB: " ++ error (next_answer w))%string).
Proof.
  intros Hno. rewrite main_try_eq. unfold session, session_with. cbv zeta.
  destruct (after_prompts_spec w) as (_ & _ & Hs & _).
  assert (Ha : next_answer (after_prompts w) = next_answer w)
    by (unfold next_answer; rewrite Hs; reflexivity).
  rewrite <- Ha in Hno |- *.
  pose proof (new_DBManager_refused (nth 0 (cin w) ""%string) (nth 1 (cin w) ""%string)
                (nth 2 (cin w) ""%string) (after_prompts w) Hno) as Hr.
  unfold bind at 1.
  destruct (new_DBManager _ _ _ (after_prompts w)) as [r w1].
  simpl in Hr. subst r. reflexivity.
Qed.

(** ** Decoding the rows of a search *)

Lemma deliver_ok (proc : string -> M unit) (msgs : list string) :
  (forall m w, exists w', proc m w = (Ok tt, w')) ->
  forall w, exists w', deliver proc msgs w = (Ok tt, w').
Proof.
  intros Hp. induction msgs as [|m rest IH]; intros w; simpl.
  - exists w. reflexivity.
  - unfold bind. destruct (Hp m w) as [w1 E1]. rewrite E1. apply IH.
Qed.

Lemma notice_processors_return (h : bool) (m : string) (w : World) :
  exists w',
    (if h then myNoticeProcessor g_printNotices else defaultNoticeProcessor) m w
    = (Ok tt, w').
Proof.
  destruct h.
  - unfold myNoticeProcessor, bind, gets. destruct (g_printNotices w); eexists; reflexivity.
  - eexists; reflexivity.
Qed.

(** A command always yields a result: the status and the rows of the
    server's answer. *)
Lemma PQexecParams_result (c : PGconn) (q : string) (n : nat) (ps : list string)
    (w : World) :
  exists w',
    PQexecParams c q n ps w
    = (Ok (mkResult (status (next_answer w)) (tuples (next_answer w))), w').
Proof.
  unfold PQexecParams. rewrite bind_emit.
  change (next_answer w) with (next_answer (snd (emit (EvExecParams c q (firstn n ps)) w))).
  generalize (snd (emit (EvExecParams c q (firstn n ps)) w)). clear w. intros w.
  unfold run_command. rewrite bind_next_reply, bind_modify.
  unfold bind at 1, gets.
  set (h := match lookup_conn c _ with Some o => hooked o | None => false end).
  unfold bind.
  destruct (deliver_ok _ (notices (next_answer w)) (notice_processors_return h)
              (update_conn c
                 (fun o => mkConn (conn_good o) (error (next_answer w)) (hooked o))
                 (set_server (tl (server w)) w))) as [w' E].
  rewrite E. exists w'. reflexivity.
Qed.

Lemma skipn_nth_cons (A : Type) (d : A) (l : list A) (i : nat) :
  (i < List.length l)%nat -> skipn i l = nth i l d :: skipn (S i) l.
Proof.
  revert i. induction l as [|x l IH]; intros i Hi; [inversion Hi|].
  destruct i as [|i]; [reflexivity|].
  simpl in Hi. apply (IH i). lia.
Qed.

Lemma decode_from_step (res : PGresult) (left i : nat) (acc : list Book) (w : World) :
  decode_from res (S left) i acc w
  = let row := nth i (rows res) [] in
    match strtol10 (nth 0 row ""%string) with
    | None => (Throw (invalid_argument "stoi"), w)
    | Some vi =>
        if in_int_range vi then
          match strtol10 (nth 4 row ""%string) with
          | None => (Throw (invalid_argument "stoi"), w)
          | Some vy =>
              if in_int_range vy then
                decode_from res left (S i)
                  (acc ++ [mkBook vi (nth 1 row ""%string) (nth 2 row ""%string)
                             (nth 3 row ""%string) vy]) w
              else (Throw (out_of_range "stoi"), w)
          end
        else (Throw (out_of_range "stoi"), w)
    end.
Proof.
  cbv zeta. simpl decode_from. unfold bind, stoi, PQgetvalue.
  destruct (strtol10 (nth 0 (nth i (rows res) []) ""%string)) as [vi|]; [|reflexivity].
  destruct (in_int_range vi); [|reflexivity]. simpl.
  destruct (strtol10 (nth 4 (nth i (rows res) []) ""%string)) as [vy|]; [|reflexivity].
  destruct (in_int_range vy); reflexivity.
Qed.

(** The index loop of the search against row-by-row decoding: with [left]
    rows to go from row [i], the loop returns the books decoded so far
    followed by the decoding of the remaining rows when every one of them
    decodes, and throws when one does not.  It touches nothing. *)
Lemma decode_from_spec (res : PGresult) (left : nat) :
  forall (i : nat) (acc : list Book) (w : World),
    (i + left = List.length (rows res))%nat ->
    match decode_all (skipn i (rows res)) with
    | Some bs => decode_from res left i acc w = (Ok (acc ++ bs), w)
    | None =>
        exists ex, decode_from res left i acc w = (Throw ex, w)
                   /\ (ex = invalid_argument "stoi" \/ ex = out_of_range "stoi")
    end.
Proof.
  induction left as [|left IH]; intros i acc w Hlen.
  - rewrite skipn_all2 by lia. simpl. rewrite app_nil_r. reflexivity.
  - rewrite (skipn_nth_cons _ [] (rows res) i) by lia.
    rewrite decode_from_step. cbv zeta.
    cbn [decode_all]. unfold decode_row.
    destruct (strtol10 (nth 0 (nth i (rows res) []) ""%string)) as [vi|].
    2:{ eexists. split; [reflexivity | left; reflexivity]. }
    destruct (in_int_range vi); simpl andb.
    2:{ destruct (strtol10 (nth 4 (nth i (rows res) []) ""%string));
          eexists; (split; [reflexivity | right; reflexivity]). }
    destruct (strtol10 (nth 4 (nth i (rows res) []) ""%string)) as [vy|].
    2:{ eexists. split; [reflexivity | left; reflexivity]. }
    destruct (in_int_range vy).
    2:{ eexists. split; [reflexivity | right; reflexivity]. }
    specialize (IH (S i)
                  (acc ++ [mkBook vi (nth 1 (nth i (rows res) []) ""%string)
                             (nth 2 (nth i (rows res) []) ""%string)
                             (nth 3 (nth i (rows res) []) ""%string) vy]) w).
    assert (Hl : (S i + left = List.length (rows res))%nat) by lia.
    specialize (IH Hl).
    destruct (decode_all (skipn (S i) (rows res))) as [bs|].
    + cbv iota beta. rewrite IH, <- app_assoc. reflexivity.
    + exact IH.
Qed.

(** [decode_all] is decoding row by row: as many books as rows, the k-th
    from the k-th row. *)
Lemma decode_all_rows (rs : list (list string)) (bs : list Book) :
  decode_all rs = Some bs -> map Some bs = map decode_row rs.
Proof.
  revert bs. induction rs as [|r rs IH]; intros bs H; simpl in H.
  - injection H as <-. reflexivity.
  - destruct (decode_row r) as [b|] eqn:Er; [|discriminate H].
    destruct (decode_all rs) as [bs'|]; [|discriminate H].
    injection H as <-. cbn [map]. rewrite Er. f_equal. apply IH. reflexivity.
Qed.

Lemma decode_all_none (rs : list (list string)) :
  decode_all rs = None <-> exists r, In r rs /\ decode_row r = None.
Proof.
  induction rs as [|r rs IH]; simpl.
  - split; [intros H; discriminate H | intros [r [[] _]]].
  - destruct (decode_row r) as [b|] eqn:Er.
    + destruct (decode_all rs) as [bs|].
      * split; [intros H; discriminate H|].
        intros [r' [[<-|Hin] Hn]]; [congruence|].
        assert (Hbad : Some bs = None) by (apply IH; exists r'; split; assumption).
        discriminate Hbad.
      * split; [|reflexivity]. intros _.
        destruct (proj1 IH eq_refl) as [r' [Hin Hn]].
        exists r'. split; [right; exact Hin | exact Hn].
    + split; [|reflexivity]. intros _. exists r. split; [left; reflexivity | exact Er].
Qed.

(** The administrative block of [createDatabase] and [dropDatabase] when
    the connection to postgres is made and the command is refused: it
    throws, and the connection it opened is still live. *)
Lemma admin_call_leaks (this : DBManager) (q name msg : string) (w : World) :
  conn_ok (next_answer w) = true ->
  refused (status (second_answer w)) ->
  exists ex w',
    (connTemp <- PQsetdbLogin "localhost" "5432" "postgres" (user_ this) (password_ this) ;;
     ok <- PQstatus connTemp ;;
     if negb ok then
       error <- PQerrorMessage connTemp ;;
       PQfinish connTemp ;;
       throw (runtime_error ("Error connecting to postgres: " ++ error)%string)
     else
       res <- PQexecParams connTemp q 1 [name] ;;
       checkResult res connTemp msg ;;
       PQfinish connTemp) w = (Throw ex, w')
    /\ live w' = next_conn w :: live w.
Proof.
  intros Hok [Hn1 Hn2].
  unfold bind at 1. rewrite PQsetdbLogin_eq.
  set (o := mkConn _ _ _).
  pose proof (lookup_new_conn
                (EvSetdbLogin (next_conn w) "localhost" "5432" "postgres"
                   (user_ this) (password_ this))
                (next_conn w) o (set_server (tl (server w)) w)) as Hl.
  change (next_conn (set_server (tl (server w)) w)) with (next_conn w) in Hl.
  change (conns (set_server (tl (server w)) w)) with (conns w) in Hl.
  set (w1 := snd (emit _ _)) in *.
  unfold bind at 1, PQstatus, gets. rewrite Hl.
  unfold o at 1. cbn [conn_good]. rewrite Hok. cbn [negb].
  destruct (PQexecParams_result (next_conn w) q 1 [name] w1) as [w2 E].
  pose proof (keeps_live_PQexecParams (next_conn w) q 1 [name] w1) as Hlive.
  rewrite E in Hlive. simpl in Hlive.
  change (next_answer w1) with (second_answer w) in E.
  unfold bind at 1. rewrite E.
  unfold bind at 1, checkResult, PQresultStatus. cbn [resultStatus].
  assert (Hc : negb (status_eqb (status (second_answer w)) PGRES_COMMAND_OK)
               && negb (status_eqb (status (second_answer w)) PGRES_TUPLES_OK) = true).
  { destruct (status (second_answer w)); try reflexivity; contradiction. }
  rewrite Hc. unfold bind, PQerrorMessage, gets, throw.
  eexists _, w2. split; [reflexivity | exact Hlive].
Qed.

(** * The claims *)




(** C2.  The role of a session is privileged exactly when the entered user
    name (the second line of input) is the literal admin, compared
    character by character; it is fixed before the menu loop starts, and no
    turn of the loop changes it or the user name it was derived from, so it
    still holds after any number of turns. *)
Theorem role_is_fixed_by_admin_literal
    (fuel : nat) (input : list string) (script : list Reply)
    (l : Locals) (w' : World) :
  main_try fuel (initial_world input script) = (Ok l, w') ->
  username l = nth 1 input ""%string
  /\ (isAdmin l = true <-> privileged (username l))
  /\ (forall dbManager l0 w0,
        exists l1,
          fst (loop_body dbManager l0 w0) = Ok l1
          /\ isAdmin l1 = isAdmin l0 /\ username l1 = username l0)
  /\ String.eqb "Admin" "admin" = false
  /\ String.eqb "ADMIN" "admin" = false
  /\ String.eqb "admin " "admin" = false
  /\ String.eqb "root" "admin" = false.
Proof.
  intros E.
  destruct (main_try_spec fuel (initial_world input script) eq_refl)
    as (r & w1 & E1 & _ & _ & _ & Hr).
  rewrite E in E1. injection E1 as <- <-.
  destruct Hr as [(_ & Hu & _ & _ & Ha) _]. simpl in Hu, Ha.
  split; [exact Hu|]. split.
  - rewrite Ha, Hu. unfold privileged. apply String.eqb_eq.
  - split; [|repeat split].
    intros db l0 w0.
    destruct (loop_body_spec db l0 w0) as (l1 & H1 & Hl1 & _).
    exists l1. split; [exact H1|].
    rewrite Hl1. destruct (_ =? _)%Z; split; reflexivity.
Qed.

Lemma role_is_fixed_by_admin_literal_witness :
  isAdmin (set_exitFlag true guest_locals) = true
  <-> privileged (username (set_exitFlag true guest_locals)).
Proof.
  refine (proj1 (proj2
    (role_is_fixed_by_admin_literal 5
       ["library"; "guest"; "pw"; "books"; "10"]%string
       [ok_reply; ok_reply; ok_reply]
       (set_exitFlag true guest_locals)
       (snd (main_try 5 guest_enters_10)) _))).
  vm_compute. reflexivity.
Defined.

(** C3, at the failing input.  A search that the server refuses is
    reported with the static description alone: whatever the server's
    message, the exception carries the text "Error searching for book" and
    nothing else.  In the sample session the refused search is reported
    without the server's message and the refused create-table, through
    [checkResult], with it; each is reported once, neither is sent again,
    and the loop goes on to the next choice. *)
Theorem search_failure_omits_server_message :
  (forall this tbl filter w,
      status (next_answer w) <> PGRES_TUPLES_OK ->
      fst (searchBookByTitle this tbl filter w)
      = Throw (runtime_error "Error searching for book"))
  /\ fst (main 5 admin_search_fails) = Some 0%Z
  /\ stderr_of (trace (snd (main 5 admin_search_fails)))
     = [("Error: Error searching for book" ++ endl)%string;
        ("Error: Error creating table: ERROR:  permission denied" ++ endl)%string]
  /\ commands_of (trace (snd (main 5 admin_search_fails)))
     = [("SELECT * FROM sp_search_book_by_title($1, $2)"%string,
         ["books"%string; "dun"%string]);
        ("CALL sp_create_table($1)"%string, ["books"%string])].
Proof.
  split.
  - intros this tbl filter w Hst.
    unfold searchBookByTitle. cbv zeta. unfold bind at 1.
    destruct (PQexecParams_result (conn_ this)
                "SELECT * FROM sp_search_book_by_title($1, $2)" 2 [tbl; filter] w)
      as [w' E].
    rewrite E. unfold PQresultStatus. cbn [resultStatus].
    destruct (status (next_answer w)); try reflexivity. contradiction.
  - vm_compute. repeat split.
Qed.

(** C4.  In every run, the parameterised commands (the remote calls of the
    menu actions) are all sent while [g_printNotices] is on, the connection
    request and the two set-up statements while it is off, and every menu
    prompt is printed while it is off; while it is off nothing reaches the
    error stream but the line of the outer handler, so no notice of the
    set-up is echoed; the flag is off when [main] is left.
    In every turn of the loop the flag is off when the choice is read, on
    when the action starts, still on wherever the action stops, with every
    entry of the action made under it, and off after the turn on both exits
    of the [try].  The registered processor writes a notice exactly when
    the flag is on. *)
Theorem notices_echoed_only_during_action
    (fuel : nat) (input : list string) (script : list Reply) :
  g_printNotices (snd (main fuel (initial_world input script))) = false
  /\ Forall notice_discipline (trace (snd (main fuel (initial_world input script))))
  /\ (forall dbManager l w,
        g_printNotices (at_prompt (isAdmin l) w) = false
        /\ g_printNotices (at_dispatch (isAdmin l) w) = true
        /\ keeps true (fun x => notices_on x = true)
             (menu_action dbManager l (chosen w))
        /\ loop_body dbManager l w
           = match menu_action dbManager l (chosen w) (at_dispatch (isAdmin l) w) with
             | (Ok l', w') => (Ok l', set_g_printNotices false w')
             | (Throw ex, w') =>
                 (Ok l, set_g_printNotices false
                          (snd (cerr ("Error: " ++ what ex ++ endl)%string w')))
             end
        /\ g_printNotices (snd (loop_body dbManager l w)) = false)
  /\ (forall message w,
        myNoticeProcessor g_printNotices message w
        = if g_printNotices w then cerr message w else (Ok tt, w)).
Proof.
  split; [apply (main_spec fuel (initial_world input script) eq_refl)|].
  split.
  - eapply Forall_impl; [|apply run_trace].
    intros x. unfold run_entry, notice_discipline.
    destruct (ev x); try exact (fun H => H); intros [H _]; exact H.
  - split.
    + intros db l w.
      split; [apply print_menu_spec|]. split; [reflexivity|]. split; [|split].
      * eapply keeps_weaken; [|apply keeps_menu_action].
        intros x [H _]; exact H.
      * apply loop_body_eq.
      * destruct (loop_body_spec db l w) as (_ & _ & _ & H & _). exact H.
    + intros message w. unfold myNoticeProcessor, bind, gets.
      destruct (g_printNotices w); reflexivity.
Qed.

(** C5, at the failing input.  When the connection to postgres is made and
    the server then refuses the command, [checkResult] throws before
    [PQfinish(connTemp)] is reached: the administrative connection is
    still open when the operation is over, and still open when [main]
    returns.  The session itself goes on: the failure is reported and the
    next choice is read.  When the connection is refused, or the command
    succeeds, the connection is released. *)
Theorem refused_admin_command_leaves_connection_open :
  (forall this name w,
      conn_ok (next_answer w) = true ->
      refused (status (second_answer w)) ->
      (exists ex w', createDatabase this name w = (Throw ex, w')
                     /\ live w' = next_conn w :: live w)
      /\ (exists ex w', dropDatabase this name w = (Throw ex, w')
                        /\ live w' = next_conn w :: live w))
  /\ fst (main 5 (admin_database_session "1" command_refused)) = Some 0%Z
  /\ live (snd (main 5 (admin_database_session "1" command_refused))) = [1%nat]
  /\ finished_conn 1%nat
       (trace (snd (main 5 (admin_database_session "1" command_refused)))) = false
  /\ stderr_of (trace (snd (main 5 (admin_database_session "1" command_refused))))
     = [("Error: Error creating database: ERROR:  database exists" ++ endl)%string]
  /\ live (snd (main 5 (admin_database_session "2" command_refused))) = [1%nat]
  /\ finished_conn 1%nat
       (trace (snd (main 5 (admin_database_session "2" command_refused)))) = false
  /\ live (snd (main 5 (admin_database_session "1" connection_refused))) = []
  /\ finished_conn 1%nat
       (trace (snd (main 5 (admin_database_session "1" connection_refused)))) = true
  /\ fst (main 5 (admin_database_session "1" connection_refused)) = Some 0%Z
  /\ live (snd (main 5 (admin_database_session "1" command_accepted))) = []
  /\ live (snd (main 5 (admin_database_session "2" command_accepted))) = [].
Proof.
  split.
  - intros this name w Hok Hno. split; apply admin_call_leaks; assumption.
  - vm_compute. repeat split.
Qed.

(** C6.  Every command text a run sends is one of the program's literals:
    a parameterised command has one of the nine action texts, a plain
    command is one of the two set-up texts.  Action by action, whatever the
    inputs and the state: the text is the action's literal, and the inputs
    are the parameter values, in order, numbers as their decimal numerals;
    the two administrative actions send theirs when the connection to
    postgres is made and nothing otherwise; view-all sends the search
    command with the empty filter. *)
Theorem sql_text_is_a_fixed_literal (this : DBManager) (w : World) :
  (forall fuel input script,
      Forall literal_command (trace (snd (main fuel (initial_world input script)))))
  /\ (forall name,
        sends (createDatabase this name) w
          (if conn_ok (next_answer w)
           then [("CALL sp_create_database($1)"%string, [name])] else []))
  /\ (forall name,
        sends (dropDatabase this name) w
          (if conn_ok (next_answer w)
           then [("CALL sp_drop_database($1)"%string, [name])] else []))
  /\ (forall tbl,
        sends (createTable this tbl) w [("CALL sp_create_table($1)"%string, [tbl])])
  /\ (forall tbl,
        sends (clearTable this tbl) w [("CALL sp_clear_table($1)"%string, [tbl])])
  /\ (forall tbl t a p y,
        sends (addBook this tbl t a p y) w
          [("CALL sp_add_book($1, $2, $3, $4, $5)"%string,
            [tbl; t; a; p; to_string y])])
  /\ (forall tbl i t a p y,
        sends (updateBook this tbl i t a p y) w
          [("CALL sp_update_book($1, $2, $3, $4, $5, $6)"%string,
            [tbl; to_string i; t; a; p; to_string y])])
  /\ (forall tbl t,
        sends (deleteBookByTitle this tbl t) w
          [("CALL sp_delete_book_by_title($1, $2)"%string, [tbl; t])])
  /\ (forall tbl filter,
        sends (searchBookByTitle this tbl filter) w
          [("SELECT * FROM sp_search_book_by_title($1, $2)"%string, [tbl; filter])])
  /\ (forall l,
        sends (menu_action this l 9) w
          [("SELECT * FROM sp_search_book_by_title($1, $2)"%string,
            [tableName l; ""%string])])
  /\ (forall u p m,
        sends (createDBUser this u p m) w
          [("CALL sp_create_db_user($1, $2, $3)"%string, [u; p; m])])
  /\ to_string 1965 = "1965"%string
  /\ to_string (-7) = "-7"%string
  /\ to_string 0 = "0"%string.
Proof.
  assert (Hsearch : forall (A : Type) tbl filter (k : list Book -> M A) w0,
            (forall books b, keeps b no_command (k books)) ->
            sends (bind (searchBookByTitle this tbl filter) k) w0
              [("SELECT * FROM sp_search_book_by_title($1, $2)"%string, [tbl; filter])]).
  { intros A tbl filter k w0 Hk. unfold sends, searchBookByTitle. cbv zeta.
    rewrite bind_assoc. apply call_sends. intros res b.
    apply keeps_bind; [|intros books; apply Hk].
    destruct (negb _); [apply keeps_throw | apply keeps_decode_from]. }
  split.
  { intros fuel input script. eapply Forall_impl; [|apply run_trace].
    intros x. unfold run_entry, literal_command.
    destruct (ev x); try (intros; exact I); intros [_ H];
      [exact H | eapply action_call_literal, H]. }
  split; [intros name; apply admin_call_sends|].
  split; [intros name; apply admin_call_sends|].
  split; [intros tbl; unfold createTable; simple_call|].
  split; [intros tbl; unfold clearTable; simple_call|].
  split; [intros tbl t a p y; unfold addBook; simple_call|].
  split; [intros tbl i t a p y; unfold updateBook; simple_call|].
  split; [intros tbl t; unfold deleteBookByTitle; simple_call|].
  split.
  { intros tbl filter. apply search_sends_its_literal. }
  split.
  { intros l. rewrite menu_action_9. apply Hsearch. intros books b.
    apply keeps_bind; [apply keeps_printBooks_quiet | intros _; apply keeps_ret]. }
  split; [intros u p m; unfold createDBUser; simple_call|].
  repeat split.
Qed.



(** C8, as the code has it.  View-all is the search of choice 8 run with
    the empty string as filter: the same command with the table name and
    the filter as its two parameters.  When the server answers with rows,
    and the id and year fields of every row read as numbers of type int,
    the result is the list of the rows decoded one by one, as many books as
    rows and in the order of the rows.  When a row has an id or a year that
    does not read so (a NULL year reads as the empty string), the search
    throws from [stoi] and yields no book at all. *)
Theorem view_all_decodes_rows_in_order
    (this : DBManager) (tbl filter : string) (w : World) :
  status (next_answer w) = PGRES_TUPLES_OK ->
  (forall l,
      menu_action this l 9
      = (books <- searchBookByTitle this (tableName l) "" ;;
         printBooks books ;;
         ret l))
  /\ (forall l,
        menu_action this l 8
        = (cout "Enter part of the Title to search: " ;;
           title <- getline ;;
           books <- searchBookByTitle this (tableName l) title ;;
           printBooks books ;;
           ret l))
  /\ sends (searchBookByTitle this tbl filter) w
       [("SELECT * FROM sp_search_book_by_title($1, $2)"%string, [tbl; filter])]
  /\ match decode_all (tuples (next_answer w)) with
     | Some books =>
         fst (searchBookByTitle this tbl filter w) = Ok books
         /\ map Some books = map decode_row (tuples (next_answer w))
         /\ List.length books = List.length (tuples (next_answer w))
     | None =>
         (exists ex,
             fst (searchBookByTitle this tbl filter w) = Throw ex
             /\ (ex = invalid_argument "stoi" \/ ex = out_of_range "stoi"))
         /\ exists row, In row (tuples (next_answer w)) /\ decode_row row = None
     end.
Proof.
  intros Hst.
  split; [intros l; apply menu_action_9|].
  split; [intros l; apply menu_action_8|].
  split; [apply search_sends_its_literal|].
  unfold searchBookByTitle. cbv zeta. unfold bind at 1 2.
  destruct (PQexecParams_result (conn_ this)
              "SELECT * FROM sp_search_book_by_title($1, $2)" 2 [tbl; filter] w)
    as [w' E].
  rewrite E. unfold PQresultStatus, PQntuples. cbn [resultStatus rows].
  rewrite Hst. cbn [status_eqb negb].
  pose proof (decode_from_spec
                (mkResult PGRES_TUPLES_OK (tuples (next_answer w)))
                (List.length (tuples (next_answer w))) 0 [] w' eq_refl) as Hd.
  cbn [rows skipn] in Hd.
  destruct (decode_all (tuples (next_answer w))) as [books|] eqn:Ed.
  - rewrite Hd. split; [reflexivity|].
    pose proof (decode_all_rows _ _ Ed) as Hm.
    split; [exact Hm|].
    rewrite <- (length_map Some books), Hm. apply length_map.
  - destruct Hd as [ex [Hd Hex]]. split.
    + exists ex. rewrite Hd. split; [reflexivity | exact Hex].
    + apply decode_all_none, Ed.
Qed.

Lemma view_all_decodes_rows_in_order_witness :
  fst (searchBookByTitle sample_manager "books" "" one_row_world)
  = Ok [mkBook 1 "Dune" "Herbert" "Ace" 1965].
Proof.
  exact (proj1 (proj2 (proj2 (proj2
           (view_all_decodes_rows_in_order sample_manager "books" ""
              one_row_world eq_refl))))).
Defined.

(** C8 as stated fails on a row without a year: the server returns two
    rows, the second with a NULL year; the search throws from [stoi], no
    book is decoded or printed, not even the first, and the operator sees
    only the error line. *)
Lemma view_all_with_null_year_yields_no_book :
  fst (searchBookByTitle sample_manager "books" ""
         (initial_world [] [mkReply true PGRES_TUPLES_OK null_year_rows "" []]))
  = Throw (invalid_argument "stoi")
  /\ fst (main 5 admin_views_null_year) = Some 0%Z
  /\ commands_of (trace (snd (main 5 admin_views_null_year)))
     = [("SELECT * FROM sp_search_book_by_title($1, $2)"%string,
         ["books"%string; ""%string])]
  /\ stderr_of (trace (snd (main 5 admin_views_null_year)))
     = [("Error: stoi" ++ endl)%string]
  /\ existsb (String.eqb (show_book (mkBook 1 "Dune" "Herbert" "Ace" 1965)))
       (stdout_of (trace (snd (main 5 admin_views_null_year)))) = false
  /\ existsb (String.eqb (show_book (mkBook 1 "Dune" "Herbert" "Ace" 1965)))
       (stdout_of (trace (snd (main 5 admin_views_two_books)))) = true.
Proof. vm_compute. repeat split. Qed.

(** C9.  Whenever [main] returns, it returns 0.  It returns as soon as the
    [try] block is over, by the end of the menu loop or by an exception,
    and then more turns allowed change nothing; it has not returned only
    while the menu loop is still running.  An exception that reaches the
    outer handler is written to the error stream and [main] returns 0; a
    refused connection is such a path. *)
Theorem main_returns_zero (fuel : nat) (w : World) :
  (forall code, fst (main fuel w) = Some code -> code = 0%Z)
  /\ (forall code w',
        main fuel w = (Some code, w') ->
        forall more, main (fuel + more) w = (Some code, w'))
  /\ (fst (main fuel w) = None ->
      exists l w', main_try fuel w = (Ok l, w') /\ exitFlag l = false)
  /\ (forall l w', main_try fuel w = (Ok l, w') -> exitFlag l = true ->
        main fuel w = (Some 0%Z, w'))
  /\ (forall ex w',
        main_try fuel w = (Throw ex, w') ->
        main fuel w
        = (Some 0%Z, snd (cerr ("Critical error: " ++ what ex ++ endl)%string w')))
  /\ (conn_ok (next_answer w) = false ->
      fst (main fuel w) = Some 0%Z
      /\ In ("Critical error: Error connecting to DB: "
             ++ error (next_answer w) ++ endl)%string
           (stderr_of (trace (snd (main fuel w))))).
Proof.
  split; [|split; [|split; [|split; [|split]]]].
  - unfold main. intros code.
    destruct (main_try fuel w) as [[l|ex] w1]; [destruct (exitFlag l)|]; simpl;
      intros H; congruence.
  - intros code w' E more. apply main_more_fuel, E.
  - unfold main.
    destruct (main_try fuel w) as [[l|ex] w1]; [|intros H; discriminate H].
    destruct (exitFlag l) eqn:Hx; [intros H; discriminate H|].
    intros _. exists l, w1. split; [reflexivity | exact Hx].
  - intros l w' E Hx. unfold main. rewrite E, Hx. reflexivity.
  - intros ex w' E. unfold main. rewrite E. reflexivity.
  - intros Hno. pose proof (main_try_refused fuel w Hno) as Hr.
    unfold main. destruct (main_try fuel w) as [r w1]. simpl in Hr. subst r.
    split; [reflexivity|].
    simpl. unfold stderr_of. rewrite flat_map_app. apply in_or_app. right.
    simpl. left. reflexivity.
Qed.

Lemma main_returns_zero_witness :
  main (1 + 4) guest_enters_10 = (Some 0%Z, snd (main 1 guest_enters_10)).
Proof.
  refine (proj1 (proj2 (main_returns_zero 1 guest_enters_10)) 0%Z _ _ 4%nat).
  vm_compute. reflexivity.
Defined.

